(** * mprompto_demo: the Q&A generation pipeline of [demo.py]

    A shallow embedding of [demo.py]: the three LLM wrappers
    ([generate_bulk_questions], [generate_answer_for_question],
    [extract_answer_details]), the orchestrator
    ([generate_final_qna_container]), the background job
    ([process_qna_job]), and the run of the file's top-level statements
    when it is loaded ([Load]), which is where the two HTTP handlers
    ([generate_qna], [get_status]) would come to exist.

    The collaborators that live outside the repository are the fields of
    a class, [Collaborators]: the chat-completion client, [requests.post],
    [json.loads], [json.dumps], Python's [str()] on a parsed JSON value and
    the configured delivery URL. Everything the file itself does
    (whitespace and fence stripping, the shape and count validation, the
    loop with its [continue]s, logging, the sleep, the job table) is
    written out, and every statement below holds for all collaborators.

    Strings are Python [str] values given by their UTF-8 bytes. The
    program records what it does to the outside (log lines, LLM requests,
    sleeps, the delivery POST) in a trace, in the order it does it. *)

From Stdlib Require Import ZArith QArith Ascii.
From Stdlib Require Import Floats.SpecFloat.
From stdpp Require Import gmap strings list pretty.

Local Open Scope Z_scope.
Local Open Scope nat_scope.

(** ** Python string operations *)

Module PyStr.

Definition of_bytes (l : list nat) : string :=
  String.string_of_list_ascii (Ascii.ascii_of_nat <$> l).

(** The double quote, for the literals of the source that contain one. *)
Definition dq : string := of_bytes [34].
(** [\n] as the source's escaped literals spell it. *)
Definition nl : string := of_bytes [10].

(** The code points for which [str.isspace] holds, as [str.strip()] uses
    them (CPython's [_PyUnicode_IsWhitespace]): U+0009..U+000D,
    U+001C..U+001F, U+0020, U+0085, U+00A0, U+1680, U+2000..U+200A,
    U+2028, U+2029, U+202F, U+205F, U+3000; each by its UTF-8 bytes. *)
Definition whitespace : list string :=
  of_bytes <$>
    [ [9]; [10]; [11]; [12]; [13]; [28]; [29]; [30]; [31]; [32];
      [194; 133]; [194; 160]; [225; 154; 128];
      [226; 128; 128]; [226; 128; 129]; [226; 128; 130]; [226; 128; 131];
      [226; 128; 132]; [226; 128; 133]; [226; 128; 134]; [226; 128; 135];
      [226; 128; 136]; [226; 128; 137]; [226; 128; 138];
      [226; 128; 168]; [226; 128; 169]; [226; 128; 175];
      [226; 129; 159]; [227; 128; 128] ].

(** [s[n:]] *)
Fixpoint drop (n : nat) (s : string) : string :=
  match n, s with
  | O, _ => s
  | S _, EmptyString => EmptyString
  | S n', String _ s' => drop n' s'
  end.

(** [s[:n]] for [0 <= n] *)
Fixpoint take (n : nat) (s : string) : string :=
  match n, s with
  | O, _ => EmptyString
  | S _, EmptyString => EmptyString
  | S n', String c s' => String c (take n' s')
  end.

(** [s[:-n]]: all but the last [n] characters, empty when [s] is shorter. *)
Definition drop_end (n : nat) (s : string) : string :=
  take (String.length s - n) s.

Definition startswith (s p : string) : bool := String.prefix p s.

Definition endswith (s p : string) : bool :=
  String.prefix (String.rev p) (String.rev s).

(** One pass of [lstrip]: remove white space code points from the front
    for as long as one is there. The fuel is the length of the input,
    every round removes at least one byte. *)
Fixpoint lstrip_go (table : list string) (fuel : nat) (s : string) : string :=
  match fuel with
  | O => s
  | S fuel' =>
      match List.find (fun w => String.prefix w s) table with
      | Some w => lstrip_go table fuel' (drop (String.length w) s)
      | None => s
      end
  end.

Definition lstrip (s : string) : string :=
  lstrip_go whitespace (String.length s) s.

Definition rstrip (s : string) : string :=
  String.rev (lstrip_go (String.rev <$> whitespace) (String.length s) (String.rev s)).

(** [s.strip()] *)
Definition strip (s : string) : string := rstrip (lstrip s).

(** Truth value of a [str]: [not s] is [True] exactly for the empty one. *)
Definition truthy (s : string) : bool :=
  match s with EmptyString => false | String _ _ => true end.

End PyStr.

(** The fence removal shared by [generate_bulk_questions] (lines 47-50)
    and [extract_answer_details] (lines 134-137), applied to the already
    stripped content. *)
Definition fence_open : string := "```json".
Definition fence_close : string := "```".

Definition strip_fences (raw_output : string) : string :=
  let raw_output :=
    if PyStr.startswith raw_output fence_open
    then PyStr.strip (PyStr.drop (String.length fence_open) raw_output)
    else raw_output in
  if PyStr.endswith raw_output fence_close
  then PyStr.strip (PyStr.drop_end 3 raw_output)
  else raw_output.

(** ** Values of [json.loads] *)

Local Set Warnings "-register-all".

(** What [json.loads] builds: [None], [bool], [int], [float], [str],
    [list] and [dict] (insertion ordered, given by its items). *)
Inductive JSON : Type :=
| JNull
| JBool (b : bool)
| JInt (z : Z)
| JFloat (f : spec_float)
| JStr (s : string)
| JArr (elems : list JSON)
| JObj (items : list (string * JSON)).

Module Py.

(** [bool(v)], the test behind [not v] and [if v]. *)
Definition truthy (v : JSON) : bool :=
  match v with
  | JNull => false
  | JBool b => b
  | JInt z => negb (z =? 0)%Z
  | JFloat (S754_zero _) => false
  | JFloat _ => true
  | JStr s => PyStr.truthy s
  | JArr [] => false
  | JArr (_ :: _) => true
  | JObj [] => false
  | JObj (_ :: _) => true
  end.

(** [type(v).__name__], as it appears in an [AttributeError]. *)
Definition type_name (v : JSON) : string :=
  match v with
  | JNull => "NoneType"
  | JBool _ => "bool"
  | JInt _ => "int"
  | JFloat _ => "float"
  | JStr _ => "str"
  | JArr _ => "list"
  | JObj _ => "dict"
  end.

(** The item stored under [key], if there is one. *)
Fixpoint lookup (key : string) (items : list (string * JSON)) : option JSON :=
  match items with
  | [] => None
  | (k, v) :: items' => if decide (k = key) then Some v else lookup key items'
  end.

(** [d.get(key)] on a [dict]: the value, or [None]. *)
Definition dict_get (items : list (string * JSON)) (key : string) : JSON :=
  default JNull (lookup key items).

(** [isinstance(v, list) and len(v) == n] *)
Definition is_list_of_len (v : JSON) (n : nat) : bool :=
  match v with
  | JArr elems => bool_decide (length elems = n)
  | _ => false
  end.

End Py.

(** ** Results, events and the monad of the program *)

(** A call either returns or raises an [Exception] whose [str()] is
    [msg], the text the [except] clauses put in the log. *)
Inductive outcome (A : Type) : Type :=
| Ok (a : A)
| Raise (msg : string).
Arguments Ok {A} a.
Arguments Raise {A} msg.

Inductive level : Type := INFO | WARNING | ERROR.

(** The arguments of [client.chat.completions.create]. *)
Record ChatRequest : Type := mkChatRequest {
  model : string;
  messages : list (string * string);   (* role, content *)
  max_tokens : nat;
  temperature : Q
}.

(** What the program does to the outside, in the order it does it. *)
Inductive event : Type :=
| Log (lv : level) (msg : string)
| ChatCompletion (req : ChatRequest)
| Sleep (seconds : nat)
| HttpPost (url data : string) (headers : list (string * string)).

(** The collaborators of [demo.py]. [W] is the state of the outside
    world, which the LLM provider and the delivery endpoint may read and
    change on every call.
    - [chat_create req] is [client.chat.completions.create(...)] followed
      by [response.choices[0].message.content]: the content ([None] when
      the message has none) or the exception raised on the way;
    - [requests_post url data headers] is [requests.post]: the status code
      of the response or the exception raised;
    - [json_loads] is [json.loads], [json_dumps] is
      [json.dumps(_, indent=2)];
    - [py_repr v] is [str(v)] for a [float], [list] or [dict];
    - [TARGET_API_URL] is read from the environment at start-up. *)
Class Collaborators (W : Type) : Type := {
  chat_create : ChatRequest → W → outcome (option string) * W;
  requests_post : string → string → list (string * string) → W → outcome Z * W;
  json_loads : string → outcome JSON;
  json_dumps : JSON → string;
  py_repr : JSON → string;
  TARGET_API_URL : string
}.

(** An entry of the job table: [{"status": ..., "result": ...}]. *)
Record JobEntry : Type := mkJobEntry {
  status : string;
  result : option string
}.

(** The state the program runs in: the outside world, what the program
    has done to it so far, and the module-level dictionary [jobs]. *)
Record state (W : Type) : Type := mkState {
  world : W;
  trace : list event;
  jobs : gmap string JobEntry
}.
Arguments mkState {W} world trace jobs.
Arguments world {W} s.
Arguments trace {W} s.
Arguments jobs {W} s.

(** Computations that read and change the state and may raise. An
    exception keeps the effects that came before it. *)
Definition E (W A : Type) : Type := state W → outcome A * state W.

Global Instance E_ret {W} : MRet (E W) := λ A a st, (Ok a, st).
Global Instance E_bind {W} : MBind (E W) := λ A B f m st,
  match m st with
  | (Ok a, st') => f a st'
  | (Raise msg, st') => (Raise msg, st')
  end.

Definition raise {W A} (msg : string) : E W A := λ st, (Raise msg, st).

(** [try: body except Exception as e: handler(str(e))] *)
Definition try_except {W A} (body : E W A) (handler : string → E W A) : E W A :=
  λ st,
    match body st with
    | (Ok a, st') => (Ok a, st')
    | (Raise msg, st') => handler msg st'
    end.

(** Lift a call that cannot touch the state. *)
Definition lift {W A} (r : outcome A) : E W A := λ st, (r, st).

(** The state once [e] has happened. *)
Definition with_event {W} (st : state W) (e : event) : state W :=
  mkState (world st) (trace st ++ [e]) (jobs st).

Definition emit {W} (e : event) : E W unit := λ st, (Ok (), with_event st e).

Definition logging_info {W} (msg : string) : E W unit := emit (Log INFO msg).
Definition logging_warning {W} (msg : string) : E W unit := emit (Log WARNING msg).
Definition logging_error {W} (msg : string) : E W unit := emit (Log ERROR msg).
Definition time_sleep {W} (seconds : nat) : E W unit := emit (Sleep seconds).

(** ** The program *)

Section Program.
Context {W : Type} `{!Collaborators W}.

(** [str(v)], what an f-string or [str.format] puts in place of [{v}]. *)
Definition py_format (v : JSON) : string :=
  match v with
  | JStr s => s
  | JNull => "None"
  | JBool true => "True"
  | JBool false => "False"
  | JInt z => pretty z
  | JFloat _ | JArr _ | JObj _ => py_repr v
  end.

(** [client.chat.completions.create(...)] and the read of
    [response.choices[0].message.content]. *)
Definition chat_completion (req : ChatRequest) : E W (option string) :=
  λ st,
    let '(r, w') := chat_create req (world st) in
    (r, mkState w' (trace st ++ [ChatCompletion req]) (jobs st)).

(** [content.strip()]; [content] is [None] when the message carries none. *)
Definition content_strip (content : option string) : E W string :=
  match content with
  | Some s => mret (PyStr.strip s)
  | None => raise "'NoneType' object has no attribute 'strip'"
  end.

(** [data.get(key)]; an [AttributeError] when [data] is not a [dict]. *)
Definition data_get (data : JSON) (key : string) : E W JSON :=
  match data with
  | JObj items => mret (Py.dict_get items key)
  | _ => raise ("'" +:+ Py.type_name data +:+ "' object has no attribute 'get'")
  end.

Definition bulk_prompt (raw_text : string) (num_questions : nat) : string :=
  "Using the following context, generate exactly " +:+ pretty num_questions +:+
  " unique, concise, and use-case–driven questions. " +:+
  "Each question must be a single sentence that starts with a capital letter and ends with a question mark. " +:+
  "Return the questions as a JSON array of strings (do not include any extra text)." +:+
  PyStr.nl +:+ PyStr.nl +:+
  "Context:" +:+ PyStr.nl +:+ raw_text.

(** Lines 24-59. The value returned is the parsed list itself. *)
Definition generate_bulk_questions
    (raw_text question_prompt : string) (num_questions : nat) (model : string)
  : E W (option (list JSON)) :=
  let messages :=
    [("system", question_prompt); ("user", bulk_prompt raw_text num_questions)] in
  try_except
    (content ← chat_completion (mkChatRequest model messages 1000 0.2);
     raw_output ← content_strip content;
     logging_info ("Raw output: " +:+ raw_output);;
     let raw_output := strip_fences raw_output in
     logging_info "Bulk questions generated. Parsing JSON...";;
     questions ← lift (json_loads raw_output);
     match questions with
     | JArr elems =>
         if bool_decide (length elems = num_questions)
         then mret (Some elems)
         else raise "Parsed questions do not match the expected count."
     | _ => raise "Parsed questions do not match the expected count."
     end)
    (λ e, logging_error ("Error generating bulk questions: " +:+ e);;
          mret None).

Definition answer_request_prompt (raw_text : string) (question : JSON) : string :=
  "Using the following context, answer the question below." +:+ PyStr.nl +:+ PyStr.nl +:+
  "Question:" +:+ PyStr.nl +:+ py_format question +:+ PyStr.nl +:+ PyStr.nl +:+
  "Your answer must include" +:+ PyStr.nl +:+
  "1. containing a detailed, highly professional answer addressing the question." +:+ PyStr.nl +:+
  "2. 'Reasoning:" +:+ PyStr.nl +:+
  "    - 'Facet considered:' followed by facets considered to answer the question (single line answer, short but informative)," +:+ PyStr.nl +:+
  "    - 'Pros considered:' followed by exactly THREE advantages (comma-separated)," +:+ PyStr.nl +:+
  "    - 'Cons considered:' followed by exactly TWO drawbacks (comma-separated)." +:+ PyStr.nl +:+ PyStr.nl +:+
  "Context:" +:+ PyStr.nl +:+ raw_text +:+ PyStr.nl +:+ PyStr.nl +:+
  "Generate your answer as plain text with the two sections and no extra commentary.".

(** Lines 61-93. *)
Definition generate_answer_for_question
    (raw_text : string) (question : JSON) (answer_prompt model : string)
  : E W (option string) :=
  let messages :=
    [("system", answer_request_prompt raw_text question); ("user", answer_prompt)] in
  try_except
    (content ← chat_completion (mkChatRequest model messages 600 0.3);
     answer_text ← content_strip content;
     logging_info "Answer generated for question.";;
     mret (Some answer_text))
    (λ e, logging_error ("Error generating answer for question '" +:+
                         py_format question +:+ "': " +:+ e);;
          mret None).

Definition extraction_prompt (answer_text : string) (question : JSON) : string :=
  "You are an expert at extracting structured information. The following question was asked:" +:+ PyStr.nl +:+
  py_format question +:+ PyStr.nl +:+
  "Below is an answer text generated by an LLM in response to this question. The answer text includes a brief summary of the question and relevant context data, along with a clearly and logically presented analysis, a balanced view explicitly stating the pros and cons, and a well-reasoned recommendation that aligns with the user's needs. " +:+ PyStr.nl +:+
  PyStr.nl +:+
  "Your job is to extract 4 things from it:" +:+ PyStr.nl +:+
  "- The main response (which is a professional, concise, two-sentence response similar to what a veteran shop attendant might say)." +:+ PyStr.nl +:+
  "- The facet (whatever multiple facets of the product was considered during decision-making, explain in a nice manner, in 1 sentence)." +:+ PyStr.nl +:+
  "- The pros (exactly 3 points, present the pros beautifully, they are the key selling point, 1 sentence per point)." +:+ PyStr.nl +:+
  "- The cons (exactly 2 points, present them beautifully, 1 sentence per point)." +:+ PyStr.nl +:+
  PyStr.nl +:+
  "Return the result in exactly the following JSON format:" +:+ PyStr.nl +:+
  "{" +:+ PyStr.nl +:+
  " " +:+ PyStr.dq +:+ "answers" +:+ PyStr.dq +:+ ": " +:+
    PyStr.dq +:+ "<the main concise response>" +:+ PyStr.dq +:+ "," +:+ PyStr.nl +:+
  " " +:+ PyStr.dq +:+ "facet" +:+ PyStr.dq +:+ ": [" +:+
    PyStr.dq +:+ "<facets>" +:+ PyStr.dq +:+ "]," +:+ PyStr.nl +:+
  " " +:+ PyStr.dq +:+ "pros" +:+ PyStr.dq +:+ ": [" +:+
    PyStr.dq +:+ "<pro1>" +:+ PyStr.dq +:+ ", " +:+
    PyStr.dq +:+ "<pro2>" +:+ PyStr.dq +:+ ", " +:+
    PyStr.dq +:+ "<pro3>" +:+ PyStr.dq +:+ "]," +:+ PyStr.nl +:+
  " " +:+ PyStr.dq +:+ "cons" +:+ PyStr.dq +:+ ": [" +:+
    PyStr.dq +:+ "<con1>" +:+ PyStr.dq +:+ ", " +:+
    PyStr.dq +:+ "<con2>" +:+ PyStr.dq +:+ "]" +:+ PyStr.nl +:+
  "}" +:+ PyStr.nl +:+
  "Do not include any additional commentary. Use only the text provided below." +:+ PyStr.nl +:+
  "Text: " +:+ answer_text.

(** Lines 95-155. The value returned is the parsed [data]. *)
Definition extract_answer_details
    (answer_text : string) (question : JSON) (model : string)
  : E W (option JSON) :=
  let messages :=
    [("system", "You are a precise data extraction assistant.");
     ("user", extraction_prompt answer_text question)] in
  try_except
    (content ← chat_completion (mkChatRequest model messages 300 0.2);
     extracted_raw ← content_strip content;
     logging_info ("Extraction raw output: " +:+ extracted_raw);;
     let extracted_raw := strip_fences extracted_raw in
     if negb (PyStr.truthy extracted_raw)
     then raise "Extraction output is empty after cleaning."
     else
       data ← lift (json_loads extracted_raw);
       facet ← data_get data "facet";
       if negb (Py.is_list_of_len facet 1) then raise "Facet count error." else
       pros ← data_get data "pros";
       if negb (Py.is_list_of_len pros 3) then raise "Pros count error." else
       cons ← data_get data "cons";
       if negb (Py.is_list_of_len cons 2) then raise "Cons count error." else
       answers ← data_get data "answers";
       if negb (Py.truthy answers) then raise "Main answer is empty." else
       mret (Some data))
    (λ e, logging_error ("Error extracting answer details: " +:+ e);;
          mret None).

(** The dictionary built at lines 159-166, with [qa] the list held under
    [final_container["data"]["qa"]]. *)
Definition final_container
    (container_id question_prompt answer_prompt : string) (qa : list JSON) : JSON :=
  JObj [("id", JStr container_id);
        ("question_prompt", JStr question_prompt);
        ("answer_prompt", JStr answer_prompt);
        ("data", JObj [("qa", JArr qa)])].

(** The dictionary built at lines 186-192. *)
Definition qa_pair (question extracted : JSON) : E W JSON :=
  answers ← data_get extracted "answers";
  facet ← data_get extracted "facet";
  pros ← data_get extracted "pros";
  cons ← data_get extracted "cons";
  mret (JObj [("question", question); ("answers", answers); ("facet", facet);
              ("pros", pros); ("cons", cons)]).

(** One round of the loop of lines 174-195: [qa] is the list under
    [final_container["data"]["qa"]] when the round starts, the value
    returned is that list when the round ends. A [continue] ends the round
    where it stands. [not answer_text] and [not extracted] hold of [None]
    and of a value whose truth value is false. *)
Definition qa_round
    (raw_text answer_prompt model : string)
    (idx : nat) (question : JSON) (qa : list JSON) : E W (list JSON) :=
  logging_info ("Processing Q&A pair " +:+ pretty idx +:+ "...");;
  answer_text ← generate_answer_for_question raw_text question answer_prompt model;
  match answer_text with
  | Some text =>
      if PyStr.truthy text then
        extracted ← extract_answer_details text question model;
        match extracted with
        | Some data =>
            if Py.truthy data then
              pair ← qa_pair question data;
              let qa := qa ++ [pair] in
              time_sleep 1;;
              mret qa
            else
              logging_error ("Skipping Q&A pair " +:+ pretty idx +:+
                             " due to extraction failure.");;
              mret qa
        | None =>
            logging_error ("Skipping Q&A pair " +:+ pretty idx +:+
                           " due to extraction failure.");;
            mret qa
        end
      else
        logging_error ("Skipping Q&A pair " +:+ pretty idx +:+
                       " due to answer generation failure.");;
        mret qa
  | None =>
      logging_error ("Skipping Q&A pair " +:+ pretty idx +:+
                     " due to answer generation failure.");;
      mret qa
  end.

(** [for idx, question in enumerate(questions, start=idx): ...] *)
Fixpoint qa_loop
    (raw_text answer_prompt model : string)
    (idx : nat) (questions : list JSON) (qa : list JSON) : E W (list JSON) :=
  match questions with
  | [] => mret qa
  | question :: questions' =>
      qa' ← qa_round raw_text answer_prompt model idx question qa;
      qa_loop raw_text answer_prompt model (S idx) questions' qa'
  end.

(** Lines 157-200. *)
Definition generate_final_qna_container
    (container_id raw_text question_prompt answer_prompt : string)
    (num_pairs : nat) (model : string) : E W (option string) :=
  questions ← generate_bulk_questions raw_text question_prompt 20 model;
  match questions with
  | None | Some [] =>
      logging_error "Failed to generate questions.";;
      mret None
  | Some questions =>
      logging_info ("Generated " +:+ pretty (length questions) +:+
                    " questions. Proceeding with answer generation...");;
      qa ← qa_loop raw_text answer_prompt model 1 questions [];
      (if bool_decide (length qa ≠ num_pairs)
       then logging_warning ("Expected " +:+ pretty num_pairs +:+
                             " QA pairs but only assembled " +:+
                             pretty (length qa) +:+ ".")
       else mret ());;
      mret (Some (json_dumps (final_container container_id question_prompt answer_prompt qa)))
  end.

(** [jobs[job_id] = entry] *)
Definition jobs_set (job_id : string) (entry : JobEntry) : E W unit :=
  λ st, (Ok (), mkState (world st) (trace st) (<[job_id := entry]> (jobs st))).

(** [requests.post(url, data=data, headers=headers).status_code] *)
Definition http_post (url data : string) (headers : list (string * string)) : E W Z :=
  λ st,
    let '(r, w') := requests_post url data headers (world st) in
    (r, mkState w' (trace st ++ [HttpPost url data headers]) (jobs st)).

(** Lines 217-231. *)
Definition process_qna_job
    (job_id raw_text question_prompt answer_prompt : string) : E W unit :=
  final_json ← generate_final_qna_container
                 job_id raw_text question_prompt answer_prompt 20 "gpt-4";
  match final_json with
  | Some json =>
      if PyStr.truthy json then
        try_except
          (let headers := [("Content-Type", "application/json")] in
           push_status ← http_post TARGET_API_URL json headers;
           if bool_decide (push_status ≠ 200%Z)
           then logging_error ("Failed to push Q&A container for job " +:+ job_id +:+
                               ". Status: " +:+ pretty push_status)
           else mret ())
          (λ e, logging_error ("Error pushing Q&A container for job " +:+ job_id +:+
                               ": " +:+ e));;
        jobs_set job_id (mkJobEntry "completed" (Some json))
      else
        jobs_set job_id (mkJobEntry "failed" None)
  | None =>
      jobs_set job_id (mkJobEntry "failed" None)
  end.

(** *** Reading a trace and a run *)

(** The LLM requests, the sleeps and the log lines of a trace, in order. *)
Definition chat_requests (tr : list event) : list ChatRequest :=
  omap (λ e, match e with ChatCompletion req => Some req | _ => None end) tr.

Definition sleeps (tr : list event) : list nat :=
  omap (λ e, match e with Sleep seconds => Some seconds | _ => None end) tr.

Definition http_posts (tr : list event) : list (string * string) :=
  omap (λ e, match e with HttpPost url data _ => Some (url, data) | _ => None end) tr.

Definition is_log (e : event) : Prop :=
  match e with Log _ _ => True | _ => False end.

(** The three requests the program sends, as the wrappers build them. *)
Definition bulk_request
    (raw_text question_prompt : string) (num_questions : nat) (model : string)
  : ChatRequest :=
  mkChatRequest model
    [("system", question_prompt); ("user", bulk_prompt raw_text num_questions)]
    1000 0.2.

Definition answer_request
    (raw_text : string) (question : JSON) (answer_prompt model : string)
  : ChatRequest :=
  mkChatRequest model
    [("system", answer_request_prompt raw_text question); ("user", answer_prompt)]
    600 0.3.

Definition extraction_request
    (answer_text : string) (question : JSON) (model : string) : ChatRequest :=
  mkChatRequest model
    [("system", "You are a precise data extraction assistant.");
     ("user", extraction_prompt answer_text question)]
    300 0.2.

(** The pair [qa_pair] builds from a question and the items of the
    extracted dictionary. *)
Definition qa_pair_of (question : JSON) (items : list (string * JSON)) : JSON :=
  JObj [("question", question);
        ("answers", Py.dict_get items "answers");
        ("facet", Py.dict_get items "facet");
        ("pros", Py.dict_get items "pros");
        ("cons", Py.dict_get items "cons")].

(** What the two calls of one round of the loop returned: the answer
    text, and the extraction when the round got as far as asking for it. *)
Record round_calls : Type := mkRoundCalls {
  answer_returned : option string;
  extraction_returned : option (option JSON)
}.

Definition calls_of_round
    (raw_text answer_prompt model : string)
    (idx : nat) (question : JSON) (st : state W) : round_calls :=
  let st := (logging_info ("Processing Q&A pair " +:+ pretty idx +:+ "...") st).2 in
  match generate_answer_for_question raw_text question answer_prompt model st with
  | (Ok (Some text), st') =>
      if PyStr.truthy text then
        match extract_answer_details text question model st' with
        | (Ok extracted, _) => mkRoundCalls (Some text) (Some extracted)
        | (Raise _, _) => mkRoundCalls (Some text) None
        end
      else mkRoundCalls (Some text) None
  | (_, _) => mkRoundCalls None None
  end.

(** The calls of all rounds of [qa_loop], round by round. *)
Fixpoint calls_of_loop
    (raw_text answer_prompt model : string)
    (idx : nat) (questions : list JSON) (qa : list JSON) (st : state W)
  : list round_calls :=
  match questions with
  | [] => []
  | question :: questions' =>
      calls_of_round raw_text answer_prompt model idx question st ::
      match qa_round raw_text answer_prompt model idx question qa st with
      | (Ok qa', st') =>
          calls_of_loop raw_text answer_prompt model (S idx) questions' qa' st'
      | (Raise _, _) => []
      end
  end.

(** The calls of the rounds of a whole orchestration: none when question
    generation gave no list. *)
Definition calls_of_orchestration
    (raw_text question_prompt answer_prompt model : string) (st : state W)
  : list round_calls :=
  match generate_bulk_questions raw_text question_prompt 20 model st with
  | (Ok (Some questions), st') =>
      calls_of_loop raw_text answer_prompt model 1 questions []
        (with_event st' (Log INFO ("Generated " +:+ pretty (length questions) +:+
                           " questions. Proceeding with answer generation...")))
  | (_, _) => []
  end.

(** The extraction of a round, when there is one, is a dictionary. *)
Definition calls_shaped (c : round_calls) : Prop :=
  ∀ data, extraction_returned c = Some (Some data) → ∃ items, data = JObj items.

(** The pairs a run of the loop appends, read off the calls of its rounds. *)
Fixpoint kept_pairs (questions : list JSON) (calls : list round_calls) : list JSON :=
  match questions, calls with
  | question :: questions', c :: calls' =>
      match extraction_returned c with
      | Some (Some (JObj items)) =>
          qa_pair_of question items :: kept_pairs questions' calls'
      | _ => kept_pairs questions' calls'
      end
  | _, _ => []
  end.

(** The round assembled a pair: the answer came back non-empty and the
    extraction came back with a dictionary. *)
Definition round_succeeded (c : round_calls) : Prop :=
  ∃ text data, answer_returned c = Some text ∧ text ≠ EmptyString ∧
               extraction_returned c = Some (Some data).

(** The answer came back non-empty and the extraction came back [None]. *)
Definition round_extraction_failed (c : round_calls) : Prop :=
  ∃ text, answer_returned c = Some text ∧ text ≠ EmptyString ∧
          extraction_returned c = Some None.

(** The two conditions as tests, and the test that in a list of rounds,
    numbered from [i], round [k] is the one whose extraction failed and all
    others assembled a pair. *)
Definition round_succeededb (c : round_calls) : bool :=
  match answer_returned c, extraction_returned c with
  | Some text, Some (Some _) => PyStr.truthy text
  | _, _ => false
  end.

Definition round_extraction_failedb (c : round_calls) : bool :=
  match answer_returned c, extraction_returned c with
  | Some text, Some None => PyStr.truthy text
  | _, _ => false
  end.

Fixpoint extraction_fails_only_at (k i : nat) (calls : list round_calls) : bool :=
  match calls with
  | [] => true
  | c :: calls' =>
      (if decide (i = k) then round_extraction_failedb c else round_succeededb c)
      && extraction_fails_only_at k (S i) calls'
  end.

(** What a reader of the output document finds in it: the value under a
    key of a dictionary, the list under [data] and then [qa], and the
    document as a whole, which is the id and the two prompts at the top and
    the list of pairs under [data.qa]. *)
Definition document_field (key : string) (doc : JSON) : option JSON :=
  match doc with
  | JObj items => Py.lookup key items
  | _ => None
  end.

Definition document_pairs (doc : JSON) : option (list JSON) :=
  match document_field "data" doc ≫= document_field "qa" with
  | Some (JArr pairs) => Some pairs
  | _ => None
  end.

Definition document_holds
    (doc : JSON) (id question_prompt answer_prompt : string) (qa : list JSON) : Prop :=
  document_field "id" doc = Some (JStr id) ∧
  document_field "question_prompt" doc = Some (JStr question_prompt) ∧
  document_field "answer_prompt" doc = Some (JStr answer_prompt) ∧
  document_pairs doc = Some qa.

(** The [question] entry of an assembled pair. *)
Definition pair_question (pair : JSON) : JSON :=
  match pair with
  | JObj items => Py.dict_get items "question"
  | _ => JNull
  end.

(** The log lines of the orchestrator and of the job. *)
Definition processing_msg (idx : nat) : string :=
  "Processing Q&A pair " +:+ pretty idx +:+ "...".
Definition skip_answer_msg (idx : nat) : string :=
  "Skipping Q&A pair " +:+ pretty idx +:+ " due to answer generation failure.".
Definition skip_extraction_msg (idx : nat) : string :=
  "Skipping Q&A pair " +:+ pretty idx +:+ " due to extraction failure.".
Definition generated_msg (n : nat) : string :=
  "Generated " +:+ pretty n +:+ " questions. Proceeding with answer generation...".
Definition mismatch_msg (num_pairs n : nat) : string :=
  "Expected " +:+ pretty num_pairs +:+ " QA pairs but only assembled " +:+ pretty n +:+ ".".
Definition push_headers : list (string * string) :=
  [("Content-Type", "application/json")].
Definition push_failed_msg (job_id : string) (code : Z) : string :=
  "Failed to push Q&A container for job " +:+ job_id +:+ ". Status: " +:+ pretty code.
Definition push_error_msg (job_id e : string) : string :=
  "Error pushing Q&A container for job " +:+ job_id +:+ ": " +:+ e.

(** The delivery POST failed: a network error, or a response outside 2xx. *)
Definition delivery_failed (r : outcome Z) : Prop :=
  match r with
  | Raise _ => True
  | Ok code => ¬ (200 ≤ code < 300)%Z
  end.

Definition is_str (v : JSON) : Prop := ∃ s, v = JStr s.

(** The checks of lines 139-151 on the cleaned text, as one test. *)
Definition extraction_accepts (text : string) : option JSON :=
  if PyStr.truthy text then
    match json_loads text with
    | Ok (JObj items) =>
        if Py.is_list_of_len (Py.dict_get items "facet") 1
           && Py.is_list_of_len (Py.dict_get items "pros") 3
           && Py.is_list_of_len (Py.dict_get items "cons") 2
           && Py.truthy (Py.dict_get items "answers")
        then Some (JObj items) else None
    | _ => None
    end
  else None.

(** What section 4.3 of the specification asks of an extraction: the
    cleaned text is not empty and parses to [data], a dictionary whose
    [facet], [pros] and [cons] are lists of one, three and two elements
    and whose [answers] is there and not empty ([bool(answers)] holds). *)
Definition has_list (items : list (string * JSON)) (key : string) (n : nat) : Prop :=
  ∃ elems, Py.lookup key items = Some (JArr elems) ∧ length elems = n.

Definition valid_extraction (text : string) (data : JSON) : Prop :=
  text ≠ EmptyString ∧ json_loads text = Ok data ∧
  ∃ items, data = JObj items ∧
    has_list items "facet" 1 ∧ has_list items "pros" 3 ∧ has_list items "cons" 2 ∧
    ∃ answers, Py.lookup "answers" items = Some answers ∧ Py.truthy answers = true.

(** *** Further readings of a trace and a run *)

(** The warnings of a trace, in order. *)
Definition warnings (tr : list event) : list string :=
  omap (λ e, match e with Log WARNING msg => Some msg | _ => None end) tr.

(** A log line at level [INFO] or [ERROR]. *)
Definition is_plain_log (e : event) : Prop :=
  match e with
  | Log INFO _ | Log ERROR _ => True
  | _ => False
  end.

(** The LLM requests of one round, given what its calls returned: the
    answer request for the question, then, when the answer came back
    non-empty, the extraction request for that answer. *)
Definition round_requests
    (raw_text answer_prompt model : string) (question : JSON) (c : round_calls)
  : list ChatRequest :=
  answer_request raw_text question answer_prompt model ::
  match answer_returned c with
  | Some text =>
      if PyStr.truthy text then [extraction_request text question model] else []
  | None => []
  end.

(** A pair as the container documents it: the five keys in the order of
    lines 186-192, one facet, three pros, two cons, and an [answers] that
    is not empty. *)
Definition well_formed_pair (p : JSON) : Prop :=
  ∃ question answers facet pros cons,
    p = JObj [("question", question); ("answers", answers);
              ("facet", JArr facet); ("pros", JArr pros); ("cons", JArr cons)] ∧
    Py.truthy answers = true ∧
    length facet = 1 ∧ length pros = 3 ∧ length cons = 2.

(** The extraction of a round, when there is one, passed the checks of
    [extract_answer_details] on some text. *)
Definition calls_valid (c : round_calls) : Prop :=
  ∀ data, extraction_returned c = Some (Some data) →
          ∃ text, valid_extraction text data.

(** The round got an extraction, which is when it appends a pair. *)
Definition round_assembled (c : round_calls) : Prop :=
  is_Some (extraction_returned c ≫= id).

(** The questions whose round got an extraction, in the order asked. *)
Definition assembled_questions
    (questions : list JSON) (calls : list round_calls) : list JSON :=
  (filter (λ qc, round_assembled qc.2) (zip questions calls)).*1.


(** What the job writes to the log about the delivery, given what
    [requests.post] gave: nothing for status 200, one error line for any
    other status and for an exception. *)
Definition delivery_log (job_id : string) (r : outcome Z) : list event :=
  match r with
  | Ok code =>
      if bool_decide (code = 200%Z) then []
      else [Log ERROR (push_failed_msg job_id code)]
  | Raise e => [Log ERROR (push_error_msg job_id e)]
  end.

(** *** Fences

    [c] occurs in [w]; a table of white space sequences none of which is
    empty or holds [c]; the backtick of the fences. *)
Fixpoint occurs (c : ascii) (w : string) : bool :=
  match w with
  | EmptyString => false
  | String x w' => bool_decide (x = c) || occurs c w'
  end.

Definition usable (c : ascii) (table : list string) : Prop :=
  Forall (λ w, occurs c w = false ∧ w ≠ EmptyString) table.

Definition backtick : ascii := "`"%char.

(** The error line a round writes when it drops its question: the
    extraction skip when the round got as far as asking for an extraction,
    the answer skip otherwise; [idx] is the number of the question, counted
    from 1 by the loop. *)
Definition skip_line (idx : nat) (c : round_calls) : event :=
  Log ERROR match extraction_returned c with
            | Some _ => skip_extraction_msg idx
            | None => skip_answer_msg idx
            end.

End Program.

(** ** Loading the module

    Python runs the top-level statements of [demo.py] from the first line
    down, once, when the file is started or imported; a function exists, and
    a route is known to the application, only after its [def] statement has
    run. Each statement is given by what it does to the module's namespace,
    in the order Python does it:
    - [Read name] evaluates a name, which raises [NameError] when nothing
      has bound it. A [def] evaluates the expressions of its decorators and
      the annotations of its parameters, not its body; a [class] evaluates
      its bases and the annotations of its body. (From Python 3.14 on an
      annotation is evaluated when it is first read, which the route
      decorator does, to build the route, before it adds it: the steps
      come in the same order.)
    - [Lib call] is work done by a library (an import, a constructor, the
      registration of a route), which returns or raises as [libs] says;
    - [Bind name] binds a name, [Route] adds a route to [app], [Serve] is
      [uvicorn.run] serving [app].
    An exception at the top level ends the load: the statements after it
    do not run. *)
Module Load.

Inductive step : Type :=
| Read (name : string)
| Lib (call : string)
| Bind (name : string)
| Route (method path handler : string)
| Serve.

(** The module so far: the names bound, newest first, the routes of [app]
    as (method, path, handler), whether the application is being served,
    and the line of the statement that ran last. *)
Record module : Type := mkModule {
  bound : list string;
  routes : list (string * string * string);
  serving : bool;
  at_line : nat
}.

(** The names of the file that Python itself binds before the first
    line. *)
Definition builtins : list string := ["__name__"; "str"].

(** The statements of [demo.py], each with the line it starts on. *)
Definition statements (as_main : bool) : list (nat * list step) :=
  [ (1, [Lib "import json"; Bind "json"]);
    (2, [Lib "import os"; Bind "os"]);
    (3, [Lib "import asyncio"; Bind "asyncio"]);
    (4, [Lib "import requests"; Bind "requests"]);
    (5, [Lib "import logging"; Bind "logging"]);
    (6, [Lib "import time"; Bind "time"]);
    (7, [Lib "from openai import OpenAI"; Bind "OpenAI"]);
    (8, [Lib "from fastapi import FastAPI, HTTPException";
         Bind "FastAPI"; Bind "HTTPException"]);
    (9, [Lib "from pydantic import BaseModel"; Bind "BaseModel"]);
    (10, [Lib "import uvicorn"; Bind "uvicorn"]);
    (12, [Read "OpenAI"; Read "os"; Lib "os.environ.get OPENAI_API_KEY";
          Lib "OpenAI"; Bind "client"]);
    (16, [Read "os"; Lib "os.environ.get TARGET_API_URL"; Bind "TARGET_API_URL"]);
    (19, [Read "logging"; Read "logging"; Lib "logging.basicConfig"]);
    (24, [Bind "generate_bulk_questions"]);
    (61, [Bind "generate_answer_for_question"]);
    (95, [Bind "extract_answer_details"]);
    (157, [Bind "generate_final_qna_container"]);
    (205, [Read "FastAPI"; Lib "FastAPI"; Bind "app"]);
    (207, [Read "BaseModel"; Read "str"; Read "str"; Read "str"; Read "str";
           Lib "class QNARequest"; Bind "QNARequest"]);
    (215, [Bind "jobs"]);
    (217, [Read "str"; Read "str"; Read "str"; Read "str";
           Bind "process_qna_job"]);
    (233, [Read "app"; Lib "app.post";
           Read "QNARequest"; Read "BackgroundTasks";
           Lib "add route generate_qna"; Route "POST" "/api/generate" "generate_qna";
           Bind "generate_qna"]);
    (245, [Read "app"; Lib "app.get";
           Read "str";
           Lib "add route get_status";
           Route "GET" "/api/status/{job_id}" "get_status";
           Bind "get_status"]);
    (254, Read "__name__" ::
          if as_main
          then [Read "uvicorn"; Read "app"; Lib "uvicorn.run"; Serve]
          else []) ].

Definition run_step (libs : string → option string) (s : step) (m : module)
  : outcome module :=
  match s with
  | Read name =>
      if bool_decide (name ∈ bound m) then Ok m
      else Raise ("name '" +:+ name +:+ "' is not defined")
  | Lib call =>
      match libs call with
      | Some e => Raise e
      | None => Ok m
      end
  | Bind name => Ok (mkModule (name :: bound m) (routes m) (serving m) (at_line m))
  | Route method path handler =>
      Ok (mkModule (bound m) (routes m ++ [(method, path, handler)]) (serving m)
            (at_line m))
  | Serve => Ok (mkModule (bound m) (routes m) true (at_line m))
  end.

Fixpoint run_steps (libs : string → option string) (steps : list step) (m : module)
  : outcome unit * module :=
  match steps with
  | [] => (Ok (), m)
  | s :: steps' =>
      match run_step libs s m with
      | Ok m' => run_steps libs steps' m'
      | Raise e => (Raise e, m)
      end
  end.

Fixpoint run (libs : string → option string) (stmts : list (nat * list step))
    (m : module) : outcome unit * module :=
  match stmts with
  | [] => (Ok (), m)
  | (line, steps) :: stmts' =>
      match run_steps libs steps
              (mkModule (bound m) (routes m) (serving m) line) with
      | (Ok _, m') => run libs stmts' m'
      | (Raise e, m') => (Raise e, m')
      end
  end.

(** Starting [demo.py] ([as_main]) or importing it. *)
Definition load (libs : string → option string) (as_main : bool)
  : outcome unit * module :=
  run libs (statements as_main) (mkModule builtins [] false 0).

(** The handler a request reaches, by the method and the path of its
    route: there is one only when the load went through, the application
    is served (by [uvicorn.run] of line 255, or by the server that
    imported the file) and the route was added. *)
Definition handler_of (method path : string) (m : module) : option string :=
  (λ r, r.2.2) <$>
    list_find (λ r : string * string * string, r.1 = (method, path)) (routes m).

Definition dispatch (libs : string → option string) (as_main : bool)
    (method path : string) : option string :=
  match load libs as_main with
  | (Ok _, m) => handler_of method path m
  | (Raise _, _) => None
  end.

(** Every library call of the load returns. *)
Definition all_return : string → option string := λ _, None.

End Load.

(** ** A scripted stand-in for the collaborators

    The examples run the program against a mock: the LLM answers with the
    next entry of a script, the delivery endpoint answers with a fixed
    status or exception, and JSON text is read and written by a small
    parser and printer for the part of JSON the examples use (no escapes
    in strings, integers as the only numbers). *)
Module Mock.

Record outside : Type := mkOutside {
  script : list (outcome (option string));
  delivery : outcome Z
}.

Definition chat (req : ChatRequest) (w : outside) : outcome (option string) * outside :=
  match script w with
  | [] => (Raise "Connection error.", w)
  | r :: script' => (r, mkOutside script' (delivery w))
  end.

Definition post (url data : string) (headers : list (string * string)) (w : outside)
  : outcome Z * outside :=
  (delivery w, w).

Definition is_ws (c : ascii) : bool :=
  bool_decide (c ∈ [" "; "009"; "010"; "013"]%char).

Fixpoint skip_ws (s : string) : string :=
  match s with
  | String c s' => if is_ws c then skip_ws s' else s
  | EmptyString => s
  end.

(** The characters of a string literal up to its closing quote. *)
Fixpoint read_string (s : string) : option (string * string) :=
  match s with
  | EmptyString => None
  | String c s' =>
      if bool_decide (c = "034"%char) then Some (EmptyString, s')
      else if bool_decide (c = "\"%char) then None
      else '(body, rest) ← read_string s'; Some (String c body, rest)
  end.

Fixpoint read_digits (s : string) (acc : N) : option (N * string) :=
  match s with
  | String c s' =>
      match Ascii.is_nat c with
      | Some d =>
          match read_digits s' (acc * 10 + N.of_nat d)%N with
          | Some r => Some r
          | None => Some ((acc * 10 + N.of_nat d)%N, s')
          end
      | None => None
      end
  | EmptyString => None
  end.

Fixpoint read_value (fuel : nat) (s : string) : option (JSON * string) :=
  match fuel with
  | O => None
  | S fuel' =>
      let fix read_elems (n : nat) (s : string) (acc : list JSON)
        : option (list JSON * string) :=
        match n with
        | O => None
        | S n' =>
            '(v, rest) ← read_value fuel' s;
            match skip_ws rest with
            | String "," rest' => read_elems n' rest' (acc ++ [v])
            | String "]" rest' => Some (acc ++ [v], rest')
            | _ => None
            end
        end in
      let fix read_items (n : nat) (s : string) (acc : list (string * JSON))
        : option (list (string * JSON) * string) :=
        match n with
        | O => None
        | S n' =>
            match skip_ws s with
            | String "034" s1 =>
                '(key, s2) ← read_string s1;
                match skip_ws s2 with
                | String ":" s3 =>
                    '(v, rest) ← read_value fuel' s3;
                    match skip_ws rest with
                    | String "," rest' => read_items n' rest' (acc ++ [(key, v)])
                    | String "}" rest' => Some (acc ++ [(key, v)], rest')
                    | _ => None
                    end
                | _ => None
                end
            | _ => None
            end
        end in
      match skip_ws s with
      | String "034" s' => '(body, rest) ← read_string s'; Some (JStr body, rest)
      | String "[" s' =>
          match skip_ws s' with
          | String "]" rest => Some (JArr [], rest)
          | _ => '(elems, rest) ← read_elems fuel' s' []; Some (JArr elems, rest)
          end
      | String "{" s' =>
          match skip_ws s' with
          | String "}" rest => Some (JObj [], rest)
          | _ => '(items, rest) ← read_items fuel' s' []; Some (JObj items, rest)
          end
      | String "-" s' => '(n, rest) ← read_digits s' 0%N; Some (JInt (- Z.of_N n), rest)
      | String "n" (String "u" (String "l" (String "l" rest))) => Some (JNull, rest)
      | String "t" (String "r" (String "u" (String "e" rest))) => Some (JBool true, rest)
      | String "f" (String "a" (String "l" (String "s" (String "e" rest)))) =>
          Some (JBool false, rest)
      | s' => '(n, rest) ← read_digits s' 0%N; Some (JInt (Z.of_N n), rest)
      end
  end.

Definition loads (s : string) : outcome JSON :=
  match read_value (S (String.length s)) s with
  | Some (v, rest) =>
      match skip_ws rest with
      | EmptyString => Ok v
      | _ => Raise "Extra data"
      end
  | None => Raise "Expecting value"
  end.

Definition quoted (s : string) : string := PyStr.dq +:+ s +:+ PyStr.dq.

Fixpoint join (sep : string) (l : list string) : string :=
  match l with
  | [] => EmptyString
  | [x] => x
  | x :: l' => x +:+ sep +:+ join sep l'
  end.

Fixpoint dumps (v : JSON) : string :=
  match v with
  | JNull => "null"
  | JBool true => "true"
  | JBool false => "false"
  | JInt z => pretty z
  | JFloat _ => "NaN"
  | JStr s => quoted s
  | JArr elems => "[" +:+ join ", " (dumps <$> elems) +:+ "]"
  | JObj items =>
      "{" +:+ join ", " ((λ kv, quoted kv.1 +:+ ": " +:+ dumps kv.2) <$> items) +:+ "}"
  end.

#[export] Instance collaborators : Collaborators outside := {|
  chat_create := chat;
  requests_post := post;
  json_loads := loads;
  json_dumps := dumps;
  py_repr := dumps;
  TARGET_API_URL := "https://playground.mprompto.com:3000/api/v1/demo/clients/load-json-data"
|}.

(** Texts the scripted LLM answers with. *)
Definition questions_text (n : nat) : string :=
  "[" +:+ join ", " ((λ i, quoted ("Q" +:+ pretty i +:+ "?")) <$> seq 1 n) +:+ "]".

Definition details_text : string :=
  "{" +:+ quoted "answers" +:+ ": " +:+ quoted "Yes." +:+ ", " +:+
  quoted "facet" +:+ ": [" +:+ quoted "f" +:+ "], " +:+
  quoted "pros" +:+ ": [" +:+ quoted "p1" +:+ ", " +:+ quoted "p2" +:+ ", " +:+
    quoted "p3" +:+ "], " +:+
  quoted "cons" +:+ ": [" +:+ quoted "c1" +:+ ", " +:+ quoted "c2" +:+ "]}".

(** An extraction with the given [answers] and [facet] texts and
    well-formed [pros] and [cons]. *)
Definition details_with (answers facet : string) : string :=
  "{" +:+ quoted "answers" +:+ ": " +:+ answers +:+ ", " +:+
  quoted "facet" +:+ ": " +:+ facet +:+ ", " +:+
  quoted "pros" +:+ ": [" +:+ quoted "p1" +:+ ", " +:+ quoted "p2" +:+
    ", " +:+ quoted "p3" +:+ "], " +:+
  quoted "cons" +:+ ": [" +:+ quoted "c1" +:+ ", " +:+ quoted "c2" +:+ "]}".

Definition fenced (text : string) : string :=
  "```json" +:+ PyStr.nl +:+ text +:+ PyStr.nl +:+ "```".

(** A round that goes well, and one whose extraction is not JSON. *)
Definition good_round : list (outcome (option string)) :=
  [Ok (Some "An answer."); Ok (Some (fenced details_text))].
Definition bad_extraction_round : list (outcome (option string)) :=
  [Ok (Some "An answer."); Ok (Some "I cannot help with that.")].

Definition start (script : list (outcome (option string))) (delivery : outcome Z)
  : state outside :=
  mkState (mkOutside script delivery) [] ∅.

(** Twenty questions, the extraction of question 5 fails. *)
Definition fifth_extraction_fails : list (outcome (option string)) :=
  Ok (Some (questions_text 20)) ::
  mjoin (replicate 4 good_round) ++ bad_extraction_round ++
  mjoin (replicate 15 good_round).

(** Twenty questions, every round goes well. *)
Definition every_round_succeeds : list (outcome (option string)) :=
  Ok (Some (questions_text 20)) :: mjoin (replicate 20 good_round).

End Mock.

(** * Verification *)

Section Verification.
Context {W : Type} `{!Collaborators W}.
Implicit Types (st : state W) (tr : list event).

(** ** Traces *)

Lemma chat_requests_app tr1 tr2 :
  chat_requests (tr1 ++ tr2) = chat_requests tr1 ++ chat_requests tr2.
Proof. apply omap_app. Qed.

Lemma sleeps_app tr1 tr2 : sleeps (tr1 ++ tr2) = sleeps tr1 ++ sleeps tr2.
Proof. apply omap_app. Qed.

Lemma http_posts_app tr1 tr2 : http_posts (tr1 ++ tr2) = http_posts tr1 ++ http_posts tr2.
Proof. apply omap_app. Qed.

Lemma logs_silent logs :
  Forall is_log logs →
  chat_requests logs = [] ∧ sleeps logs = [] ∧ http_posts logs = [].
Proof.
  induction 1 as [|[] ? Hx ? [? [? ?]]]; simpl in *; try done.
Qed.

(** ** The three wrappers

    Each wrapper makes one LLM request, writes only log lines besides, never
    raises, and leaves [jobs] alone; what it returns is read off the
    response. *)

Ltac run_E :=
  unfold try_except, mbind, E_bind, mret, E_ret, raise, lift, logging_info,
    logging_error, logging_warning, time_sleep, emit, with_event, chat_completion,
    content_strip, http_post, jobs_set; simpl.

Ltac frame_done :=
  simpl; rewrite <- ?app_assoc; simpl; eexists _, _; (split; [|reflexivity]);
  repeat constructor.

Lemma generate_answer_for_question_run raw_text question answer_prompt model st :
  let req := answer_request raw_text question answer_prompt model in
  generate_answer_for_question raw_text question answer_prompt model st =
    match chat_create req (world st) with
    | (Ok (Some content), w') =>
        (Ok (Some (PyStr.strip content)),
         mkState w' (trace st ++ [ChatCompletion req;
                                  Log INFO "Answer generated for question."])
                 (jobs st))
    | (Ok None, w') =>
        (Ok None,
         mkState w' (trace st ++ [ChatCompletion req;
            Log ERROR ("Error generating answer for question '" +:+ py_format question
                       +:+ "': " +:+ "'NoneType' object has no attribute 'strip'")])
                 (jobs st))
    | (Raise e, w') =>
        (Ok None,
         mkState w' (trace st ++ [ChatCompletion req;
            Log ERROR ("Error generating answer for question '" +:+ py_format question
                       +:+ "': " +:+ e)])
                 (jobs st))
    end.
Proof.
  intros req. unfold generate_answer_for_question. run_E.
  fold (answer_request raw_text question answer_prompt model). fold req.
  destruct (chat_create req (world st)) as [[[content|]|e] w']; simpl;
    rewrite <- ?app_assoc; reflexivity.
Qed.

Lemma generate_answer_for_question_frame raw_text question answer_prompt model st :
  let req := answer_request raw_text question answer_prompt model in
  ∃ r logs,
    Forall is_log logs ∧
    generate_answer_for_question raw_text question answer_prompt model st =
      (Ok r, mkState (chat_create req (world st)).2
                     (trace st ++ ChatCompletion req :: logs) (jobs st)).
Proof.
  intros req. rewrite generate_answer_for_question_run. fold req.
  destruct (chat_create req (world st)) as [[[content|]|e] w']; simpl; frame_done.
Qed.

Lemma generate_bulk_questions_frame raw_text question_prompt n model st :
  let req := bulk_request raw_text question_prompt n model in
  ∃ r logs,
    Forall is_log logs ∧
    generate_bulk_questions raw_text question_prompt n model st =
      (Ok r, mkState (chat_create req (world st)).2
                     (trace st ++ ChatCompletion req :: logs) (jobs st)).
Proof.
  intros req. unfold generate_bulk_questions. run_E.
  fold (bulk_request raw_text question_prompt n model). fold req.
  destruct (chat_create req (world st)) as [[[content|]|e] w']; simpl;
    [|frame_done..].
  destruct (json_loads _) as [[| | | | |elems|]|e]; simpl;
    try case_bool_decide; simpl; frame_done.
Qed.

Lemma generate_bulk_questions_value raw_text question_prompt n model st :
  let req := bulk_request raw_text question_prompt n model in
  (generate_bulk_questions raw_text question_prompt n model st).1 =
    match (chat_create req (world st)).1 with
    | Ok (Some content) =>
        match json_loads (strip_fences (PyStr.strip content)) with
        | Ok (JArr elems) =>
            if bool_decide (length elems = n) then Ok (Some elems) else Ok None
        | _ => Ok None
        end
    | _ => Ok None
    end.
Proof.
  intros req. unfold generate_bulk_questions. run_E.
  fold (bulk_request raw_text question_prompt n model). fold req.
  destruct (chat_create req (world st)) as [[[content|]|e] w']; simpl; try done.
  destruct (json_loads _) as [[| | | | |elems|]|e]; simpl; try done.
  case_bool_decide; done.
Qed.

Lemma extract_answer_details_value answer_text question model st :
  let req := extraction_request answer_text question model in
  (extract_answer_details answer_text question model st).1 =
    match (chat_create req (world st)).1 with
    | Ok (Some content) => Ok (extraction_accepts (strip_fences (PyStr.strip content)))
    | _ => Ok None
    end.
Proof.
  intros req. unfold extract_answer_details, extraction_accepts. run_E.
  fold (extraction_request answer_text question model). fold req.
  destruct (chat_create req (world st)) as [[[content|]|e] w']; simpl; try done.
  destruct (PyStr.truthy _); simpl; try done.
  destruct (json_loads _) as [[| | | | | |items]|e]; simpl; try done.
  unfold data_get; run_E.
  repeat (match goal with |- context [Py.is_list_of_len ?a ?b] =>
            destruct (Py.is_list_of_len a b); simpl; try done end).
  destruct (Py.truthy _); done.
Qed.

Lemma extract_answer_details_frame answer_text question model st :
  let req := extraction_request answer_text question model in
  ∃ r logs,
    Forall is_log logs ∧
    extract_answer_details answer_text question model st =
      (Ok r, mkState (chat_create req (world st)).2
                     (trace st ++ ChatCompletion req :: logs) (jobs st)).
Proof.
  intros req. unfold extract_answer_details. run_E.
  fold (extraction_request answer_text question model). fold req.
  destruct (chat_create req (world st)) as [[[content|]|e] w']; simpl;
    [|frame_done..].
  destruct (PyStr.truthy _); simpl; [|frame_done].
  destruct (json_loads _) as [[| | | | | |items]|e]; simpl; try frame_done.
  unfold data_get; run_E.
  repeat (match goal with |- context [Py.is_list_of_len ?a ?b] =>
            destruct (Py.is_list_of_len a b); simpl; try frame_done end).
  destruct (Py.truthy _); frame_done.
Qed.


Lemma extraction_accepts_inv text data :
  extraction_accepts text = Some data →
  text ≠ EmptyString ∧ json_loads text = Ok data ∧
  ∃ items, data = JObj items ∧ Py.truthy data = true ∧
    Py.is_list_of_len (Py.dict_get items "facet") 1 = true ∧
    Py.is_list_of_len (Py.dict_get items "pros") 3 = true ∧
    Py.is_list_of_len (Py.dict_get items "cons") 2 = true ∧
    Py.truthy (Py.dict_get items "answers") = true.
Proof.
  unfold extraction_accepts. destruct text as [|c text]; simpl; [done|].
  destruct (json_loads _) as [[| | | | | |items]|e]; try done.
  destruct (Py.is_list_of_len _ 1) eqn:Hf; simpl; [|done].
  destruct (Py.is_list_of_len _ 3) eqn:Hp; simpl; [|done].
  destruct (Py.is_list_of_len _ 2) eqn:Hc; simpl; [|done].
  destruct (Py.truthy (Py.dict_get _ _)) eqn:Ha; simpl; [|done].
  intros [= <-]. split; [done|]. split; [done|]. exists items.
  repeat split; try done.
  destruct items; [done|done].
Qed.

Lemma extract_answer_details_some answer_text question model st data st' :
  extract_answer_details answer_text question model st = (Ok (Some data), st') →
  ∃ items, data = JObj items ∧ Py.truthy data = true.
Proof.
  intros Hrun.
  pose proof (extract_answer_details_value answer_text question model st) as Hv.
  rewrite Hrun in Hv. simpl in Hv.
  destruct (chat_create _ _).1 as [[content|]|e]; try done.
  injection Hv as Hv. symmetry in Hv.
  apply extraction_accepts_inv in Hv as (_ & _ & items & -> & Ht & _). eauto.
Qed.

(** ** The loop *)

Lemma qa_pair_run question items st :
  qa_pair question (JObj items) st = (Ok (qa_pair_of question items), st).
Proof. reflexivity. Qed.

Lemma qa_round_unfold raw_text answer_prompt model idx question qa st :
  qa_round raw_text answer_prompt model idx question qa st =
    let st0 := with_event st (Log INFO ("Processing Q&A pair " +:+ pretty idx +:+ "...")) in
    match generate_answer_for_question raw_text question answer_prompt model st0 with
    | (Ok (Some text), st1) =>
        if PyStr.truthy text then
          match extract_answer_details text question model st1 with
          | (Ok (Some data), st2) =>
              if Py.truthy data then
                match qa_pair question data st2 with
                | (Ok p, st3) => (Ok (qa ++ [p]), with_event st3 (Sleep 1))
                | (Raise e, st3) => (Raise e, st3)
                end
              else (Ok qa, with_event st2 (Log ERROR (skip_extraction_msg idx)))
          | (Ok None, st2) => (Ok qa, with_event st2 (Log ERROR (skip_extraction_msg idx)))
          | (Raise e, st2) => (Raise e, st2)
          end
        else (Ok qa, with_event st1 (Log ERROR (skip_answer_msg idx)))
    | (Ok None, st1) => (Ok qa, with_event st1 (Log ERROR (skip_answer_msg idx)))
    | (Raise e, st1) => (Raise e, st1)
    end.
Proof.
  unfold qa_round, skip_answer_msg, skip_extraction_msg.
  unfold mbind, E_bind, mret, E_ret, logging_info, logging_error, time_sleep, emit.
  simpl.
  destruct (generate_answer_for_question _ _ _ _ _) as [[[text|]|e] st1]; try done.
  destruct (PyStr.truthy text); try done.
  destruct (extract_answer_details _ _ _ _) as [[[data|]|e] st2]; try done.
  destruct (Py.truthy data); done.
Qed.

(** One round: it always returns, the job table is untouched, nothing is
    posted; it appends one pair and then sleeps one second when both calls
    gave a result, and otherwise leaves the list as it was and does not
    sleep. *)
Lemma qa_round_spec raw_text answer_prompt model idx question qa st :
  ∃ st' delta,
    trace st' = trace st ++ delta ∧ jobs st' = jobs st ∧ http_posts delta = [] ∧
    match extraction_returned
            (calls_of_round raw_text answer_prompt model idx question st) with
    | Some (Some data) =>
        ∃ items, data = JObj items ∧
          qa_round raw_text answer_prompt model idx question qa st =
            (Ok (qa ++ [qa_pair_of question items]), st') ∧
          sleeps delta = [1]
    | _ =>
        qa_round raw_text answer_prompt model idx question qa st = (Ok qa, st') ∧
        sleeps delta = []
    end.
Proof.
  rewrite qa_round_unfold. unfold calls_of_round. simpl.
  set (st0 := with_event st _).
  destruct (generate_answer_for_question_frame raw_text question answer_prompt model st0)
    as (a & logs & Hlogs & ->).
  destruct (logs_silent _ Hlogs) as (Hc & Hs & Hp).
  set (st1 := mkState _ _ _).
  assert (skip : ∀ msg, ∃ st' delta,
    trace st' = trace st ++ delta ∧ jobs st' = jobs st ∧ http_posts delta = [] ∧
    (Ok qa, with_event st1 (Log ERROR msg)) = (Ok qa, st') ∧ sleeps delta = []).
  { intros msg. eexists _, _. split; [|split; [|split; [|split; [reflexivity|]]]].
    - simpl. rewrite <- !app_assoc. reflexivity.
    - reflexivity.
    - rewrite !http_posts_app. simpl. rewrite Hp. reflexivity.
    - rewrite !sleeps_app. simpl. rewrite Hs. reflexivity. }
  destruct a as [text|]; simpl; [|apply skip].
  destruct (PyStr.truthy text); simpl; [|apply skip].
  destruct (extract_answer_details_frame text question model st1)
    as (e & logs2 & Hlogs2 & Hex).
  rewrite Hex.
  destruct (logs_silent _ Hlogs2) as (Hc2 & Hs2 & Hp2).
  set (st2 := mkState _ (trace st1 ++ _) _) in *.
  assert (skip2 : ∀ msg, ∃ st' delta,
    trace st' = trace st ++ delta ∧ jobs st' = jobs st ∧ http_posts delta = [] ∧
    (Ok qa, with_event st2 (Log ERROR msg)) = (Ok qa, st') ∧ sleeps delta = []).
  { intros msg. eexists _, _. split; [|split; [|split; [|split; [reflexivity|]]]].
    - simpl. rewrite <- !app_assoc. reflexivity.
    - reflexivity.
    - rewrite !http_posts_app. simpl. rewrite Hp, Hp2. reflexivity.
    - rewrite !sleeps_app. simpl. rewrite Hs, Hs2. reflexivity. }
  destruct e as [data|]; simpl; [|apply skip2].
  destruct (extract_answer_details_some _ _ _ _ _ _ Hex) as (items & -> & Ht).
  rewrite Ht, qa_pair_run.
  exists (with_event st2 (Sleep 1)). eexists.
  split; [|split; [|split; [|exists items; split; [|split]]]];
    try reflexivity.
  - simpl. rewrite <- !app_assoc. reflexivity.
  - rewrite !http_posts_app. simpl. rewrite Hp, Hp2. reflexivity.
  - rewrite !sleeps_app. simpl. rewrite Hs, Hs2. reflexivity.
Qed.

Lemma calls_of_round_shaped raw_text answer_prompt model idx question st :
  calls_shaped (calls_of_round raw_text answer_prompt model idx question st).
Proof.
  intros data. unfold calls_of_round. simpl.
  destruct (generate_answer_for_question _ _ _ _ _) as [[[text|]|e] st1]; try done.
  destruct (PyStr.truthy text); try done.
  destruct (extract_answer_details _ _ _ _) as [[[d|]|e] st2] eqn:Hex; try done.
  simpl. intros [= <-].
  destruct (extract_answer_details_some _ _ _ _ _ _ Hex) as (items & -> & _). eauto.
Qed.

(** The loop always returns; what it appends are the pairs of the rounds
    whose two calls gave a result, and it sleeps one second for each of
    them. *)
Lemma qa_loop_spec raw_text answer_prompt model questions :
  ∀ idx qa st,
    let calls := calls_of_loop raw_text answer_prompt model idx questions qa st in
    ∃ st' delta,
      qa_loop raw_text answer_prompt model idx questions qa st =
        (Ok (qa ++ kept_pairs questions calls), st') ∧
      trace st' = trace st ++ delta ∧ jobs st' = jobs st ∧
      http_posts delta = [] ∧
      sleeps delta = replicate (length (kept_pairs questions calls)) 1 ∧
      length calls = length questions ∧
      Forall calls_shaped calls.
Proof.
  induction questions as [|question questions IH]; intros idx qa st calls.
  - exists st, []. subst calls. simpl. rewrite !app_nil_r. done.
  - subst calls. simpl.
    unfold mbind at 1. unfold E_bind at 1.
    pose proof (calls_of_round_shaped raw_text answer_prompt model idx question st) as Hsh.
    destruct (qa_round_spec raw_text answer_prompt model idx question qa st)
      as (st1 & d1 & Htr1 & Hj1 & Hp1 & Hround).
    destruct (extraction_returned _) as [[data|]|] eqn:Hext;
      [ destruct Hround as (items & -> & -> & Hs1);
        destruct (IH (S idx) (qa ++ [qa_pair_of question items]) st1)
          as (st2 & d2 & -> & Htr2 & Hj2 & Hp2 & Hs2 & Hlen & Hall)
      | destruct Hround as (-> & Hs1);
        destruct (IH (S idx) qa st1)
          as (st2 & d2 & -> & Htr2 & Hj2 & Hp2 & Hs2 & Hlen & Hall) .. ];
      exists st2, (d1 ++ d2); rewrite <- ?app_assoc; simpl;
      (split; [done|]); rewrite Htr2, Htr1, <- app_assoc;
      (split; [done|]); (split; [congruence|]);
      rewrite http_posts_app, sleeps_app, Hp1, Hp2, Hs1, Hs2;
      (split; [done|]); (split; [done|]); (split; [by rewrite Hlen|]);
      by constructor.
Qed.

(** ** The orchestrator and the job *)

Lemma generate_final_qna_container_unfold
    container_id raw_text question_prompt answer_prompt num_pairs model st :
  generate_final_qna_container container_id raw_text question_prompt answer_prompt
      num_pairs model st =
    match generate_bulk_questions raw_text question_prompt 20 model st with
    | (Ok (Some (q :: qs)), st1) =>
        match qa_loop raw_text answer_prompt model 1 (q :: qs) []
                (with_event st1 (Log INFO (generated_msg (length (q :: qs))))) with
        | (Ok qa, st2) =>
            (Ok (Some (json_dumps
                         (final_container container_id question_prompt answer_prompt qa))),
             if bool_decide (length qa ≠ num_pairs)
             then with_event st2 (Log WARNING (mismatch_msg num_pairs (length qa)))
             else st2)
        | (Raise e, st2) => (Raise e, st2)
        end
    | (Ok _, st1) => (Ok None, with_event st1 (Log ERROR "Failed to generate questions."))
    | (Raise e, st1) => (Raise e, st1)
    end.
Proof.
  unfold generate_final_qna_container, generated_msg, mismatch_msg.
  unfold mbind at 1. unfold E_bind at 1.
  destruct (generate_bulk_questions _ _ _ _ _) as [[[[|q qs]|]|e] st1]; try done.
  unfold mbind at 1 2 3. unfold E_bind at 1 2 3. unfold logging_info at 1. unfold emit at 1.
  destruct (qa_loop _ _ _ _ _ _ _) as [[qa|e] st2]; try done.
  case_bool_decide; done.
Qed.

(** The orchestrator always returns; it leaves the job table alone and
    posts nothing. When it returns a text, that text is the serialised
    container. *)
Lemma generate_final_qna_container_frame
    container_id raw_text question_prompt answer_prompt num_pairs model st :
  ∃ r st' delta,
    generate_final_qna_container container_id raw_text question_prompt answer_prompt
      num_pairs model st = (Ok r, st') ∧
    trace st' = trace st ++ delta ∧ jobs st' = jobs st ∧ http_posts delta = [] ∧
    ∀ json, r = Some json →
      ∃ qa, json = json_dumps (final_container container_id question_prompt
                                               answer_prompt qa).
Proof.
  rewrite generate_final_qna_container_unfold.
  destruct (generate_bulk_questions_frame raw_text question_prompt 20 model st)
    as (qs & logs & Hlogs & ->).
  destruct (logs_silent _ Hlogs) as (_ & _ & Hp).
  set (st1 := mkState _ _ _).
  assert (Hfail : ∃ r st' delta,
    (Ok None, with_event st1 (Log ERROR "Failed to generate questions."))
      = (Ok r, st') ∧
    trace st' = trace st ++ delta ∧ jobs st' = jobs st ∧ http_posts delta = [] ∧
    ∀ json, r = Some json →
      ∃ qa, json = json_dumps (final_container container_id question_prompt
                                               answer_prompt qa)).
  { eexists _, _, _. split; [reflexivity|]. simpl. rewrite <- app_assoc.
    split; [reflexivity|]. split; [done|]. split; [|done].
    simpl. rewrite http_posts_app. simpl. by rewrite Hp. }
  destruct qs as [[|q qs]|]; [done| |done].
  set (st2 := with_event st1 _).
  destruct (qa_loop_spec raw_text answer_prompt model (q :: qs) 1 [] st2)
    as (st3 & d & -> & Htr & Hj & Hp3 & _).
  generalize ([] ++ kept_pairs (q :: qs)
                (calls_of_loop raw_text answer_prompt model 1 (q :: qs) [] st2)).
  intros qa.
  destruct (bool_decide _); eexists _, _, _; (split; [reflexivity|]); simpl;
    rewrite Htr; simpl; rewrite <- ?app_assoc; simpl;
    (split; [reflexivity|]); (split; [done|]);
    (split; [|intros json [= <-]; eauto]);
    repeat first [rewrite http_posts_app | progress simpl];
    rewrite ?Hp, ?Hp3; done.
Qed.

Lemma process_qna_job_unfold job_id raw_text question_prompt answer_prompt st :
  process_qna_job job_id raw_text question_prompt answer_prompt st =
    match generate_final_qna_container job_id raw_text question_prompt answer_prompt
            20 "gpt-4" st with
    | (Ok (Some json), st1) =>
        if PyStr.truthy json then
          let tr := trace st1 ++ [HttpPost TARGET_API_URL json push_headers] in
          match requests_post TARGET_API_URL json push_headers (world st1) with
          | (r, w') =>
              (Ok (),
               mkState w'
                 match r with
                 | Ok code =>
                     if bool_decide (code ≠ 200%Z)
                     then tr ++ [Log ERROR (push_failed_msg job_id code)]
                     else tr
                 | Raise e => tr ++ [Log ERROR (push_error_msg job_id e)]
                 end
                 (<[job_id := mkJobEntry "completed" (Some json)]> (jobs st1)))
          end
        else
          (Ok (), mkState (world st1) (trace st1)
                          (<[job_id := mkJobEntry "failed" None]> (jobs st1)))
    | (Ok None, st1) =>
        (Ok (), mkState (world st1) (trace st1)
                        (<[job_id := mkJobEntry "failed" None]> (jobs st1)))
    | (Raise e, st1) => (Raise e, st1)
    end.
Proof.
  unfold process_qna_job, push_failed_msg, push_error_msg, push_headers.
  unfold mbind at 1. unfold E_bind at 1.
  destruct (generate_final_qna_container _ _ _ _ _ _ _) as [[[json|]|e] st1]; try done.
  destruct (PyStr.truthy json); try done.
  run_E.
  destruct (requests_post _ _ _ _) as [[code|e] w']; simpl; try done.
  case_bool_decide; done.
Qed.

Lemma truthy_nonempty (s : string) : s ≠ EmptyString → PyStr.truthy s = true.
Proof. by destruct s. Qed.

Lemma generate_bulk_questions_some raw_text question_prompt n model st questions st' :
  generate_bulk_questions raw_text question_prompt n model st
    = (Ok (Some questions), st') →
  length questions = n.
Proof.
  intros Hrun.
  pose proof (generate_bulk_questions_value raw_text question_prompt n model st) as Hv.
  rewrite Hrun in Hv. simpl in Hv.
  destruct (chat_create _ _).1 as [[content|]|e]; try done.
  destruct (json_loads _) as [[| | | | |elems|]|e]; try done.
  case_bool_decide; [|done]. by injection Hv as ->.
Qed.

(** Once the orchestrator has returned a non-empty text, the job posts it
    once, writes at most a log line about the delivery, and records
    [completed] with that text. *)
Lemma process_qna_job_completes
    job_id raw_text question_prompt answer_prompt st json st1 :
  generate_final_qna_container job_id raw_text question_prompt answer_prompt
    20 "gpt-4" st = (Ok (Some json), st1) →
  json ≠ EmptyString →
  ∃ st' logs,
    process_qna_job job_id raw_text question_prompt answer_prompt st = (Ok (), st') ∧
    Forall is_log logs ∧
    trace st' = trace st1 ++ HttpPost TARGET_API_URL json push_headers :: logs ∧
    world st' = (requests_post TARGET_API_URL json push_headers (world st1)).2 ∧
    jobs st' = <[job_id := mkJobEntry "completed" (Some json)]> (jobs st1).
Proof.
  intros Hrun Hne. rewrite process_qna_job_unfold, Hrun, (truthy_nonempty _ Hne).
  simpl. destruct (requests_post _ _ _ _) as [[code|e] w']; simpl.
  - case_bool_decide; eexists _, _; (split; [reflexivity|]); simpl;
      rewrite <- ?app_assoc; simpl; (split; [|done]); repeat constructor.
  - eexists _, _; (split; [reflexivity|]); simpl;
      rewrite <- ?app_assoc; simpl; (split; [|done]); repeat constructor.
Qed.

Lemma pair_question_qa_pair_of question items :
  pair_question (qa_pair_of question items) = question.
Proof. reflexivity. Qed.

Lemma kept_pairs_all questions :
  ∀ calls,
    length calls = length questions →
    Forall calls_shaped calls →
    Forall round_succeeded calls →
    pair_question <$> kept_pairs questions calls = questions.
Proof.
  induction questions as [|q questions IH]; intros [|c calls] Hlen Hshaped Hall;
    simplify_eq/=; [done|].
  apply Forall_cons in Hshaped as [Hc Hshaped].
  apply Forall_cons in Hall as [(text & data & _ & _ & Hext) Hall].
  destruct (Hc data Hext) as [items ->].
  rewrite Hext. simpl. f_equal. by apply IH.
Qed.

Lemma kept_pairs_all_but_one questions :
  ∀ calls k,
    length calls = length questions →
    Forall calls_shaped calls →
    (∀ i c, calls !! i = Some c →
            if decide (i = k) then round_extraction_failed c else round_succeeded c) →
    pair_question <$> kept_pairs questions calls = delete k questions.
Proof.
  induction questions as [|q questions IH]; intros [|c calls] k Hlen Hshaped Hcalls;
    simplify_eq/=; [by destruct k|].
  apply Forall_cons in Hshaped as [Hc Hshaped].
  destruct k as [|k].
  - destruct (Hcalls 0 c eq_refl) as (text & _ & _ & Hext). rewrite Hext.
    apply kept_pairs_all; [done..|].
    apply Forall_lookup. intros i c' Hi. apply (Hcalls (S i) c' Hi).
  - destruct (Hcalls 0 c eq_refl) as (text & data & _ & _ & Hext).
    destruct (Hc data Hext) as [items ->].
    rewrite Hext. simpl. f_equal. apply IH; [done..|].
    intros i c' Hi. specialize (Hcalls (S i) c' Hi). simpl in Hcalls.
    by repeat case_decide; simplify_eq.
Qed.

Lemma round_succeededb_true c : round_succeededb c = true → round_succeeded c.
Proof.
  destruct c as [[[|a text]|] [[data|]|]]; try done. intros _.
  by exists (String a text), data.
Qed.

Lemma round_extraction_failedb_true c :
  round_extraction_failedb c = true → round_extraction_failed c.
Proof.
  destruct c as [[[|a text]|] [[data|]|]]; try done. intros _.
  by exists (String a text).
Qed.

Lemma extraction_fails_only_at_true k calls :
  ∀ i0,
    extraction_fails_only_at k i0 calls = true →
    ∀ i c, calls !! i = Some c →
           if decide (i0 + i = k)
           then round_extraction_failed c else round_succeeded c.
Proof.
  induction calls as [|c0 calls IH]; intros i0 Hall i c Hi; [done|].
  simpl in Hall. apply andb_true_iff in Hall as [Hc0 Hall].
  destruct i as [|i]; simplify_eq/=.
  - rewrite Nat.add_0_r. case_decide.
    + by apply round_extraction_failedb_true.
    + by apply round_succeededb_true.
  - replace (i0 + S i) with (S i0 + i) by lia. by apply IH.
Qed.

(** ** The load of the module *)

(** Whatever the libraries do, the load ends in an exception no later than
    at the statement of line 233, before a route is added and before
    either handler is bound. *)
Lemma load_stops_check libs as_main :
  match Load.load libs as_main with
  | (Raise _, m) =>
      bool_decide (Load.routes m = [] ∧ Load.serving m = false ∧
                   Load.at_line m ≤ 233 ∧
                   ("generate_qna" ∉ Load.bound m) ∧ ("get_status" ∉ Load.bound m))
  | (Ok _, _) => false
  end = true.
Proof.
  destruct as_main; vm_compute;
    repeat match goal with
           | |- context [libs ?call] => destruct (libs call); [reflexivity|]
           end; reflexivity.
Qed.

Lemma load_stops_before_the_handlers libs as_main :
  ∃ e m,
    Load.load libs as_main = (Raise e, m) ∧
    Load.routes m = [] ∧
    Load.serving m = false ∧
    Load.at_line m ≤ 233 ∧
    ("generate_qna" ∉ Load.bound m) ∧
    ("get_status" ∉ Load.bound m).
Proof.
  pose proof (load_stops_check libs as_main) as Hcheck.
  destruct (Load.load libs as_main) as [[[]|e] m]; [done|].
  exists e, m. split; [done|]. by apply bool_decide_eq_true in Hcheck.
Qed.

(** When every library call returns, the exception is the [NameError] of
    line 234, raised by the statement that starts on line 233. *)
Lemma load_raises_name_error as_main :
  Load.load Load.all_return as_main =
    (Raise "name 'BackgroundTasks' is not defined",
     Load.mkModule
       ["process_qna_job"; "jobs"; "QNARequest"; "app";
        "generate_final_qna_container"; "extract_answer_details";
        "generate_answer_for_question"; "generate_bulk_questions";
        "TARGET_API_URL"; "client"; "uvicorn"; "BaseModel"; "HTTPException";
        "FastAPI"; "OpenAI"; "time"; "logging"; "requests"; "asyncio"; "os";
        "json"; "__name__"; "str"]
       [] false 233).
Proof. destruct as_main; vm_compute; reflexivity. Qed.

(** ** Finer facts about the traces *)

Lemma warnings_app tr1 tr2 : warnings (tr1 ++ tr2) = warnings tr1 ++ warnings tr2.
Proof. apply omap_app. Qed.

Lemma plain_logs_silent logs :
  Forall is_plain_log logs →
  chat_requests logs = [] ∧ sleeps logs = [] ∧ http_posts logs = [] ∧
  warnings logs = [].
Proof.
  induction 1 as [|[[]| | |] ? Hx ? (? & ? & ? & ?)]; simpl in *; try done.
Qed.

Lemma generate_bulk_questions_quiet raw_text question_prompt n model st :
  let req := bulk_request raw_text question_prompt n model in
  ∃ r logs,
    Forall is_plain_log logs ∧
    generate_bulk_questions raw_text question_prompt n model st =
      (Ok r, mkState (chat_create req (world st)).2
                     (trace st ++ ChatCompletion req :: logs) (jobs st)).
Proof.
  intros req. unfold generate_bulk_questions. run_E.
  fold (bulk_request raw_text question_prompt n model). fold req.
  destruct (chat_create req (world st)) as [[[content|]|e] w']; simpl;
    [|frame_done..].
  destruct (json_loads _) as [[| | | | |elems|]|e]; simpl;
    try case_bool_decide; simpl; frame_done.
Qed.

Lemma generate_answer_for_question_quiet raw_text question answer_prompt model st :
  let req := answer_request raw_text question answer_prompt model in
  ∃ r logs,
    Forall is_plain_log logs ∧
    generate_answer_for_question raw_text question answer_prompt model st =
      (Ok r, mkState (chat_create req (world st)).2
                     (trace st ++ ChatCompletion req :: logs) (jobs st)).
Proof.
  intros req. rewrite generate_answer_for_question_run. fold req.
  destruct (chat_create req (world st)) as [[[content|]|e] w']; simpl; frame_done.
Qed.

Lemma extract_answer_details_quiet answer_text question model st :
  let req := extraction_request answer_text question model in
  ∃ r logs,
    Forall is_plain_log logs ∧
    extract_answer_details answer_text question model st =
      (Ok r, mkState (chat_create req (world st)).2
                     (trace st ++ ChatCompletion req :: logs) (jobs st)).
Proof.
  intros req. unfold extract_answer_details. run_E.
  fold (extraction_request answer_text question model). fold req.
  destruct (chat_create req (world st)) as [[[content|]|e] w']; simpl;
    [|frame_done..].
  destruct (PyStr.truthy _); simpl; [|frame_done].
  destruct (json_loads _) as [[| | | | | |items]|e]; simpl; try frame_done.
  unfold data_get; run_E.
  repeat (match goal with |- context [Py.is_list_of_len ?a ?b] =>
            destruct (Py.is_list_of_len a b); simpl; try frame_done end).
  destruct (Py.truthy _); frame_done.
Qed.

(** What a round adds to the trace: no warning, and the requests that
    [round_requests] reads off its calls. *)
Lemma qa_round_trace raw_text answer_prompt model idx question qa st :
  let st' := (qa_round raw_text answer_prompt model idx question qa st).2 in
  warnings (trace st') = warnings (trace st) ∧
  chat_requests (trace st') =
    chat_requests (trace st) ++
    round_requests raw_text answer_prompt model question
      (calls_of_round raw_text answer_prompt model idx question st).
Proof.
  rewrite qa_round_unfold. unfold calls_of_round, round_requests. simpl.
  set (st0 := with_event st _).
  destruct (generate_answer_for_question_quiet raw_text question answer_prompt model st0)
    as (a & logs & Hlogs & ->).
  destruct (plain_logs_silent _ Hlogs) as (Hc & _ & _ & Hw).
  set (st1 := mkState _ _ _).
  assert (Htr1 : warnings (trace st1) = warnings (trace st) ∧
                 chat_requests (trace st1) =
                   chat_requests (trace st) ++
                   [answer_request raw_text question answer_prompt model]).
  { unfold st1, st0. simpl.
    rewrite <- !app_assoc, !warnings_app, !chat_requests_app. simpl.
    rewrite Hw, Hc. by rewrite !app_nil_r. }
  destruct Htr1 as [Hw1 Hc1]. clearbody st1.
  assert (skip : ∀ msg,
    warnings (trace (with_event st1 (Log ERROR msg))) = warnings (trace st) ∧
    chat_requests (trace (with_event st1 (Log ERROR msg))) =
      chat_requests (trace st) ++
      [answer_request raw_text question answer_prompt model]).
  { intros msg. simpl trace. rewrite warnings_app, chat_requests_app, Hw1, Hc1.
    simpl. by rewrite !app_nil_r. }
  destruct a as [text|]; simpl; [|apply skip].
  destruct (PyStr.truthy text) eqn:Htext; simpl; rewrite ?Htext; [|apply skip].
  destruct (extract_answer_details_quiet text question model st1)
    as (e & logs2 & Hlogs2 & Hex).
  rewrite Hex. simpl. rewrite Htext.
  destruct (plain_logs_silent _ Hlogs2) as (Hc2 & _ & _ & Hw2).
  set (st2 := mkState _ (trace st1 ++ _) _) in *.
  assert (Htr2 : warnings (trace st2) = warnings (trace st) ∧
                 chat_requests (trace st2) =
                   chat_requests (trace st) ++
                   [answer_request raw_text question answer_prompt model;
                    extraction_request text question model]).
  { unfold st2. simpl trace.
    rewrite warnings_app, chat_requests_app, Hw1, Hc1. simpl.
    rewrite Hw2, Hc2, <- app_assoc. by rewrite !app_nil_r. }
  destruct Htr2 as [Hw2' Hc2']. clearbody st2.
  assert (skip2 : ∀ ev, warnings [ev] = [] → chat_requests [ev] = [] →
    warnings (trace (with_event st2 ev)) = warnings (trace st) ∧
    chat_requests (trace (with_event st2 ev)) =
      chat_requests (trace st) ++
      [answer_request raw_text question answer_prompt model;
       extraction_request text question model]).
  { intros ev Hev1 Hev2. simpl trace.
    rewrite warnings_app, chat_requests_app, Hw2', Hc2', Hev1, Hev2.
    by rewrite !app_nil_r. }
  destruct e as [data|]; simpl; [|by apply skip2].
  destruct (extract_answer_details_some _ _ _ _ _ _ Hex) as (items & -> & Ht).
  rewrite Ht, qa_pair_run. simpl snd. by apply skip2.
Qed.

Lemma qa_round_total raw_text answer_prompt model idx question qa st :
  ∃ qa' st',
    qa_round raw_text answer_prompt model idx question qa st = (Ok qa', st').
Proof.
  destruct (qa_round_spec raw_text answer_prompt model idx question qa st)
    as (st' & delta & _ & _ & _ & Hround).
  destruct (extraction_returned _) as [[data|]|].
  - destruct Hround as (items & _ & -> & _). eauto.
  - destruct Hround as (-> & _). eauto.
  - destruct Hround as (-> & _). eauto.
Qed.

(** What the loop adds to the trace: no warning, and the requests of its
    rounds, round after round. *)
Lemma qa_loop_trace raw_text answer_prompt model questions :
  ∀ idx qa st,
    let st' := (qa_loop raw_text answer_prompt model idx questions qa st).2 in
    warnings (trace st') = warnings (trace st) ∧
    chat_requests (trace st') =
      chat_requests (trace st) ++
      mjoin (zip_with (round_requests raw_text answer_prompt model) questions
               (calls_of_loop raw_text answer_prompt model idx questions qa st)).
Proof.
  induction questions as [|question questions IH]; intros idx qa st; simpl.
  - by rewrite app_nil_r.
  - unfold mbind, E_bind.
    destruct (qa_round_trace raw_text answer_prompt model idx question qa st)
      as [Hw Hc].
    destruct (qa_round_total raw_text answer_prompt model idx question qa st)
      as (qa' & st1 & Hround).
    rewrite Hround in Hw, Hc |- *. simpl in Hw, Hc.
    destruct (IH (S idx) qa' st1) as [Hw' Hc'].
    split; [congruence|]. by rewrite Hc', Hc, <- app_assoc.
Qed.

Lemma calls_of_loop_Forall raw_text answer_prompt model (P : round_calls → Prop) :
  (∀ idx question st,
     P (calls_of_round raw_text answer_prompt model idx question st)) →
  ∀ questions idx qa st,
    Forall P (calls_of_loop raw_text answer_prompt model idx questions qa st).
Proof.
  intros HP. induction questions as [|question questions IH]; intros idx qa st;
    simpl; [done|].
  constructor; [apply HP|].
  by destruct (qa_round _ _ _ _ _ _ _) as [[qa'|e] st1].
Qed.

Lemma kept_pairs_sublist questions :
  ∀ calls, pair_question <$> kept_pairs questions calls `sublist_of` questions.
Proof.
  induction questions as [|q questions IH]; intros [|c calls]; simpl;
    try apply sublist_nil_l.
  destruct (extraction_returned c) as [[[| | | | | |items]|]|]; simpl;
    try (apply sublist_cons, IH).
  apply sublist_skip, IH.
Qed.

(** The whole of an orchestration whose question generation gave a list:
    the text returned, what is left alone, the warnings and the requests. *)
Lemma orchestration_summary
    container_id raw_text question_prompt answer_prompt num_pairs model st
    questions st1 :
  generate_bulk_questions raw_text question_prompt 20 model st
    = (Ok (Some questions), st1) →
  let calls := calls_of_orchestration raw_text question_prompt answer_prompt model st in
  let qa := kept_pairs questions calls in
  ∃ st',
    generate_final_qna_container container_id raw_text question_prompt answer_prompt
      num_pairs model st
      = (Ok (Some (json_dumps
                     (final_container container_id question_prompt answer_prompt qa))),
         st') ∧
    jobs st' = jobs st ∧
    http_posts (trace st') = http_posts (trace st) ∧
    warnings (trace st') =
      warnings (trace st) ++
      (if bool_decide (length qa ≠ num_pairs)
       then [mismatch_msg num_pairs (length qa)] else []) ∧
    chat_requests (trace st') =
      chat_requests (trace st) ++
      bulk_request raw_text question_prompt 20 model ::
      mjoin (zip_with (round_requests raw_text answer_prompt model) questions calls) ∧
    length questions = 20 ∧ length calls = 20 ∧ Forall calls_shaped calls.
Proof.
  intros Hgen calls qa.
  pose proof (generate_bulk_questions_some _ _ _ _ _ _ _ Hgen) as Hlen.
  subst qa calls. unfold calls_of_orchestration. rewrite Hgen.
  fold (generated_msg (length questions)).
  destruct (generate_bulk_questions_quiet raw_text question_prompt 20 model st)
    as (r & logs & Hlogs & Hframe).
  rewrite Hgen in Hframe. injection Hframe as _ Hst1.
  destruct (plain_logs_silent _ Hlogs) as (Hc & _ & Hp & Hw).
  remember (with_event st1 (Log INFO (generated_msg (length questions)))) as st2
    eqn:Hst2def.
  assert (Hst2 : jobs st2 = jobs st ∧
                 http_posts (trace st2) = http_posts (trace st) ∧
                 warnings (trace st2) = warnings (trace st) ∧
                 chat_requests (trace st2) =
                   chat_requests (trace st) ++
                   [bulk_request raw_text question_prompt 20 model]).
  { rewrite Hst2def, Hst1. simpl. rewrite <- !app_assoc.
    repeat first [rewrite http_posts_app | rewrite warnings_app
                 | rewrite chat_requests_app | progress simpl].
    rewrite Hc, Hp, Hw. simpl. by rewrite !app_nil_r. }
  destruct Hst2 as (Hj2 & Hp2 & Hw2 & Hc2).
  destruct (qa_loop_spec raw_text answer_prompt model questions 1 [] st2)
    as (st3 & delta & Hloop & Htr & Hj3 & Hp3 & _ & Hclen & Hshaped).
  destruct (qa_loop_trace raw_text answer_prompt model questions 1 [] st2)
    as [Hw3 Hc3].
  rewrite Hloop in Hw3, Hc3. simpl in Hloop, Hw3, Hc3.
  set (calls := calls_of_loop _ _ _ _ _ _ _) in *.
  set (qa := kept_pairs questions calls) in *.
  rewrite generate_final_qna_container_unfold, Hgen.
  destruct questions as [|q qs]; [done|].
  rewrite <- Hst2def, Hloop.
  eexists. split; [reflexivity|].
  assert (Hp3' : http_posts (trace st3) = http_posts (trace st))
    by by rewrite Htr, http_posts_app, Hp3, app_nil_r.
  assert (Hcalls : length calls = 20) by by rewrite Hclen.
  clearbody qa calls.
  case_bool_decide; simpl;
    rewrite ?warnings_app, ?chat_requests_app, ?http_posts_app, Hw3, Hc3, Hw2, Hc2,
      Hp3', Hj3, Hj2, <- ?app_assoc; simpl; rewrite ?app_nil_r;
    repeat split; done.
Qed.

(** ** The job, case by case *)

Lemma process_qna_job_delivers
    job_id raw_text question_prompt answer_prompt st json st1 :
  generate_final_qna_container job_id raw_text question_prompt answer_prompt
    20 "gpt-4" st = (Ok (Some json), st1) →
  json ≠ EmptyString →
  process_qna_job job_id raw_text question_prompt answer_prompt st =
    (Ok (),
     mkState (requests_post TARGET_API_URL json push_headers (world st1)).2
       (trace st1 ++
          HttpPost TARGET_API_URL json push_headers ::
          delivery_log job_id
            (requests_post TARGET_API_URL json push_headers (world st1)).1)
       (<[job_id := mkJobEntry "completed" (Some json)]> (jobs st1))).
Proof.
  intros Hrun Hne. rewrite process_qna_job_unfold, Hrun, (truthy_nonempty _ Hne).
  simpl. destruct (requests_post _ _ _ _) as [[code|e] w']; simpl.
  - destruct (decide (code = 200%Z)) as [->|Hcode].
    + by rewrite bool_decide_false by (by intros []).
    + rewrite !bool_decide_true, bool_decide_false by done.
      by rewrite <- app_assoc.
  - by rewrite <- app_assoc.
Qed.

Lemma process_qna_job_without_questions
    job_id raw_text question_prompt answer_prompt st st1 :
  generate_bulk_questions raw_text question_prompt 20 "gpt-4" st = (Ok None, st1) →
  process_qna_job job_id raw_text question_prompt answer_prompt st =
    (Ok (),
     mkState (world st1) (trace st1 ++ [Log ERROR "Failed to generate questions."])
       (<[job_id := mkJobEntry "failed" None]> (jobs st1))).
Proof.
  intros Hgen.
  by rewrite process_qna_job_unfold, generate_final_qna_container_unfold, Hgen.
Qed.

Lemma delivery_log_plain job_id r : Forall is_plain_log (delivery_log job_id r).
Proof.
  destruct r as [code|e]; simpl; [case_bool_decide|]; repeat constructor.
Qed.

(** Question generation leaves [jobs] alone, posts nothing, warns of
    nothing and sends its one request. *)
Lemma generate_bulk_questions_trace raw_text question_prompt n model st :
  let st' := (generate_bulk_questions raw_text question_prompt n model st).2 in
  jobs st' = jobs st ∧
  http_posts (trace st') = http_posts (trace st) ∧
  warnings (trace st') = warnings (trace st) ∧
  chat_requests (trace st') =
    chat_requests (trace st) ++ [bulk_request raw_text question_prompt n model].
Proof.
  destruct (generate_bulk_questions_quiet raw_text question_prompt n model st)
    as (r & logs & Hlogs & ->).
  destruct (plain_logs_silent _ Hlogs) as (Hc & _ & Hp & Hw). simpl.
  split; [done|].
  repeat first [rewrite http_posts_app | rewrite warnings_app
               | rewrite chat_requests_app | progress simpl].
  rewrite Hc, Hp, Hw. by rewrite !app_nil_r.
Qed.

(** ** Fence stripping *)

Section Fences.

#[local] Arguments String.append !_ _ / : simpl nomatch.

Lemma string_app_assoc (a b c : string) : (a +:+ b) +:+ c = a +:+ b +:+ c.
Proof. induction a as [|x a IH]; simpl; [done|]. by rewrite IH. Qed.

Lemma string_app_nil_r (a : string) : a +:+ EmptyString = a.
Proof. induction a as [|x a IH]; simpl; [done|]. by rewrite IH. Qed.

Lemma string_length_app (a b : string) :
  String.length (a +:+ b) = String.length a + String.length b.
Proof. induction a as [|x a IH]; simpl; [done|]. by rewrite IH. Qed.

Lemma rev_app_spec (s acc : string) :
  String.rev_app s acc = String.rev s +:+ acc.
Proof.
  unfold String.rev. revert acc.
  induction s as [|x s IH]; intros acc; simpl; [done|].
  rewrite (IH (String x acc)), (IH (String x EmptyString)).
  by rewrite string_app_assoc.
Qed.

Lemma rev_cons (x : ascii) (s : string) :
  String.rev (String x s) = String.rev s +:+ String x EmptyString.
Proof. unfold String.rev at 1. simpl. apply rev_app_spec. Qed.

Lemma rev_app (a b : string) : String.rev (a +:+ b) = String.rev b +:+ String.rev a.
Proof.
  induction a as [|x a IH]; simpl.
  - by rewrite string_app_nil_r.
  - by rewrite !rev_cons, IH, string_app_assoc.
Qed.

Lemma rev_involutive (s : string) : String.rev (String.rev s) = s.
Proof.
  induction s as [|x s IH]; [done|].
  by rewrite rev_cons, rev_app, IH.
Qed.

Lemma take_app_length (a b : string) : PyStr.take (String.length a) (a +:+ b) = a.
Proof. induction a as [|x a IH]; simpl; [by destruct b|]. by rewrite IH. Qed.

Lemma drop_app_le (n : nat) (a b : string) :
  n ≤ String.length a → PyStr.drop n (a +:+ b) = PyStr.drop n a +:+ b.
Proof.
  revert a. induction n as [|n IH]; intros [|x a] Hn; simpl in *; try done; try lia.
  apply IH. lia.
Qed.

Lemma length_drop (n : nat) (a : string) :
  String.length (PyStr.drop n a) = String.length a - n.
Proof. revert a. induction n as [|n IH]; intros [|x a]; simpl; done. Qed.

Lemma prefix_length (w s : string) :
  String.prefix w s = true → String.length w ≤ String.length s.
Proof.
  revert s. induction w as [|x w IH]; intros [|y s]; simpl; try done; try lia.
  destruct (ascii_dec x y); [|done]. intros Hp%IH. lia.
Qed.

Lemma prefix_app_fresh (c : ascii) (t w : string) :
  occurs c w = false →
  ∀ body, String.prefix w (body +:+ String c t) = String.prefix w body.
Proof.
  induction w as [|x w IH]; intros Hw body; [by destruct body|].
  simpl in Hw. apply orb_false_iff in Hw as [Hx Hw].
  apply bool_decide_eq_false in Hx.
  destruct body as [|y body]; simpl.
  - by destruct (ascii_dec x c).
  - destruct (ascii_dec x y); [|done]. by apply IH.
Qed.

Lemma find_app_fresh (c : ascii) (t : string) (table : list string) body :
  usable c table →
  List.find (λ w, String.prefix w (body +:+ String c t)) table
    = List.find (λ w, String.prefix w body) table.
Proof.
  induction 1 as [|w table [Hw _] _ IH]; simpl; [done|].
  by rewrite (prefix_app_fresh c t w Hw), IH.
Qed.

Lemma find_prefix_Some table s w :
  List.find (λ w, String.prefix w s) table = Some w →
  w ∈ table ∧ String.prefix w s = true.
Proof.
  intros [Hin Hp]%List.find_some. split; [|done]. by apply list_elem_of_In.
Qed.

Lemma find_prefix_nil (c : ascii) (table : list string) :
  usable c table →
  List.find (λ w, String.prefix w EmptyString) table = None.
Proof.
  induction 1 as [|w table [_ Hne] _ IH]; [done|].
  cbn [List.find]. by destruct w.
Qed.

Lemma lstrip_go_nil (c : ascii) (table : list string) fuel :
  usable c table → PyStr.lstrip_go table fuel EmptyString = EmptyString.
Proof.
  intros Htable. destruct fuel; [done|]. cbn [PyStr.lstrip_go].
  by rewrite (find_prefix_nil c).
Qed.

Lemma lstrip_go_app (c : ascii) (t : string) (table : list string) :
  usable c table →
  ∀ fuel fuel' body,
    String.length body ≤ fuel → String.length body ≤ fuel' →
    PyStr.lstrip_go table fuel' (body +:+ String c t)
      = PyStr.lstrip_go table fuel body +:+ String c t.
Proof.
  intros Htable.
  assert (Hnil : ∀ fuel',
    PyStr.lstrip_go table fuel' (EmptyString +:+ String c t)
      = EmptyString +:+ String c t).
  { intros [|fuel']; [done|]. cbn [PyStr.lstrip_go].
    by rewrite (find_app_fresh c t table EmptyString Htable),
      (find_prefix_nil c table Htable). }
  induction fuel as [|fuel IH]; intros fuel' body Hf Hf'.
  { destruct body; [|simpl in Hf; lia]. by rewrite Hnil. }
  destruct fuel' as [|fuel'].
  { destruct body; [|simpl in Hf'; lia].
    by rewrite Hnil, (lstrip_go_nil c table _ Htable). }
  cbn [PyStr.lstrip_go]. rewrite (find_app_fresh c t table body Htable).
  destruct (List.find _ table) as [w|] eqn:Hfind; [|done].
  apply find_prefix_Some in Hfind as [Hin Hp].
  apply (proj1 (Forall_forall _ _) Htable) in Hin as [_ Hne].
  pose proof (prefix_length _ _ Hp) as Hlen.
  rewrite drop_app_le by done.
  assert (0 < String.length w) by (destruct w; simpl; [done|lia]).
  apply IH; rewrite length_drop; lia.
Qed.

Lemma lstrip_go_settled (c : ascii) (table : list string) :
  usable c table →
  ∀ fuel s,
    String.length s ≤ fuel →
    List.find (λ w, String.prefix w (PyStr.lstrip_go table fuel s)) table = None.
Proof.
  intros Htable. induction fuel as [|fuel IH]; intros s Hf.
  { destruct s; [|simpl in Hf; lia]. apply (find_prefix_nil c table Htable). }
  cbn [PyStr.lstrip_go].
  destruct (List.find (λ w, String.prefix w s) table) as [w|] eqn:Hfind; [|done].
  apply find_prefix_Some in Hfind as [Hin Hp].
  apply (proj1 (Forall_forall _ _) Htable) in Hin as [_ Hne].
  pose proof (prefix_length _ _ Hp) as Hlen.
  assert (0 < String.length w) by (destruct w; simpl; [done|lia]).
  apply IH. rewrite length_drop. lia.
Qed.

Lemma lstrip_go_fixed table fuel s :
  List.find (λ w, String.prefix w s) table = None →
  PyStr.lstrip_go table fuel s = s.
Proof.
  intros Hfind. destruct fuel; [done|]. cbn [PyStr.lstrip_go]. by rewrite Hfind.
Qed.


Lemma whitespace_usable : usable backtick PyStr.whitespace.
Proof. repeat constructor; done. Qed.

Lemma rev_whitespace_usable : usable backtick (String.rev <$> PyStr.whitespace).
Proof. repeat constructor; done. Qed.

Lemma lstrip_app_fence (body t : string) :
  PyStr.lstrip (body +:+ String backtick t) = PyStr.lstrip body +:+ String backtick t.
Proof.
  unfold PyStr.lstrip. apply (lstrip_go_app _ _ _ whitespace_usable); [done|].
  rewrite string_length_app. lia.
Qed.

Lemma rstrip_fence_end (s : string) :
  PyStr.rstrip (s +:+ String backtick EmptyString) = s +:+ String backtick EmptyString.
Proof.
  unfold PyStr.rstrip. rewrite rev_app.
  change (String.rev (String backtick EmptyString)) with (String backtick EmptyString).
  rewrite lstrip_go_fixed; [|done].
  change (String backtick EmptyString +:+ String.rev s)
    with (String.rev (String backtick EmptyString) +:+ String.rev s).
  by rewrite <- rev_app, rev_involutive.
Qed.

Lemma lstrip_idempotent (s : string) : PyStr.lstrip (PyStr.lstrip s) = PyStr.lstrip s.
Proof.
  unfold PyStr.lstrip at 1. apply lstrip_go_fixed.
  by apply (lstrip_go_settled _ _ whitespace_usable).
Qed.

Lemma prefix_app_self (a b : string) : String.prefix a (a +:+ b) = true.
Proof.
  induction a as [|x a IH]; simpl; [by destruct b|].
  by destruct (ascii_dec x x).
Qed.

Lemma strip_fenced_end (s : string) :
  PyStr.strip (s +:+ fence_close) = PyStr.lstrip s +:+ fence_close.
Proof.
  unfold PyStr.strip, fence_close.
  change "```" with (String backtick ("``")).
  rewrite lstrip_app_fence.
  change (String backtick "``") with ("``" +:+ String backtick EmptyString).
  rewrite <- string_app_assoc. apply rstrip_fence_end.
Qed.

Lemma endswith_fence_close (s : string) :
  PyStr.endswith (s +:+ fence_close) fence_close = true.
Proof.
  unfold PyStr.endswith. rewrite rev_app.
  change (String.rev fence_close) with fence_close.
  apply prefix_app_self.
Qed.

Lemma drop_end_fence_close (s : string) :
  PyStr.drop_end 3 (s +:+ fence_close) = s.
Proof.
  unfold PyStr.drop_end. rewrite string_length_app.
  replace (String.length s + String.length fence_close - 3) with (String.length s)
    by (unfold fence_close; simpl; lia).
  apply take_app_length.
Qed.

Lemma strip_fences_fenced (body : string) :
  strip_fences (PyStr.strip (fence_open +:+ body +:+ fence_close)) = PyStr.strip body.
Proof.
  assert (Hstrip :
    PyStr.strip (fence_open +:+ body +:+ fence_close)
      = fence_open +:+ body +:+ fence_close).
  { rewrite <- string_app_assoc, strip_fenced_end.
    change (PyStr.lstrip (fence_open +:+ body)) with (fence_open +:+ body).
    apply string_app_assoc. }
  rewrite Hstrip. unfold strip_fences.
  assert (Hstart :
    PyStr.startswith (fence_open +:+ body +:+ fence_close) fence_open = true).
  { apply prefix_app_self. }
  rewrite Hstart.
  change (PyStr.drop (String.length fence_open) (fence_open +:+ body +:+ fence_close))
    with (body +:+ fence_close).
  rewrite strip_fenced_end, endswith_fence_close, drop_end_fence_close.
  unfold PyStr.strip. by rewrite lstrip_idempotent.
Qed.
Lemma strip_fences_trimmed (content body : string) :
  PyStr.strip content = fence_open +:+ body +:+ fence_close →
  strip_fences (PyStr.strip content) = PyStr.strip body.
Proof.
  intros Hcontent.
  rewrite <- (strip_fences_fenced body). f_equal. rewrite Hcontent.
  symmetry. rewrite <- string_app_assoc, strip_fenced_end.
  change (PyStr.lstrip (fence_open +:+ body)) with (fence_open +:+ body).
  apply string_app_assoc.
Qed.

End Fences.

Lemma forallb_round_succeeded calls :
  forallb round_succeededb calls = true → Forall round_succeeded calls.
Proof.
  induction calls as [|c calls IH]; simpl; [done|].
  intros [Hc Hall]%andb_true_iff. constructor; [|by apply IH].
  by apply round_succeededb_true.
Qed.

(** ** The properties of the specification *)

(** C9: [generate_bulk_questions] checks the length of the parsed list and
    nothing about its elements: whenever the cleaned response parses to a
    list of exactly [num_questions] elements, of whatever types, that list
    is what the function returns. *)
Theorem generate_bulk_questions_ignores_element_types
    raw_text question_prompt num_questions model st content w' elems :
  chat_create (bulk_request raw_text question_prompt num_questions model) (world st)
    = (Ok (Some content), w') →
  json_loads (strip_fences (PyStr.strip content)) = Ok (JArr elems) →
  length elems = num_questions →
  (generate_bulk_questions raw_text question_prompt num_questions model st).1
    = Ok (Some elems).
Proof.
  intros Hchat Hloads Hlen.
  rewrite generate_bulk_questions_value, Hchat. simpl.
  rewrite Hloads. by rewrite bool_decide_true.
Qed.

(** C2: when the cleaned response parses to a list of exactly
    [num_questions] strings, [generate_bulk_questions] returns that list as
    it is; when it parses to a list with one element less or one more, or
    does not parse, it returns [None]. *)
Theorem generate_bulk_questions_exact_count
    raw_text question_prompt num_questions model st content w' :
  chat_create (bulk_request raw_text question_prompt num_questions model) (world st)
    = (Ok (Some content), w') →
  let text := strip_fences (PyStr.strip content) in
  let returned :=
    (generate_bulk_questions raw_text question_prompt num_questions model st).1 in
  (∀ questions,
     json_loads text = Ok (JArr questions) → Forall is_str questions →
     length questions = num_questions →
     returned = Ok (Some questions)) ∧
  (∀ questions,
     json_loads text = Ok (JArr questions) →
     S (length questions) = num_questions ∨ length questions = S num_questions →
     returned = Ok None) ∧
  (∀ msg, json_loads text = Raise msg → returned = Ok None).
Proof.
  intros Hchat text returned. subst returned.
  rewrite generate_bulk_questions_value, Hchat. simpl. fold text.
  split; [|split].
  - intros questions -> _ Hlen. by rewrite bool_decide_true.
  - intros questions -> Hlen. rewrite bool_decide_false; [done|lia].
  - by intros msg ->.
Qed.

Lemma is_list_of_len_dict_get items key n :
  Py.is_list_of_len (Py.dict_get items key) n = true ↔ has_list items key n.
Proof.
  unfold Py.dict_get, has_list. split.
  - destruct (Py.lookup key items) as [[| | | | |elems|]|]; simpl; try done.
    intros Hlen%bool_decide_eq_true. eauto.
  - intros (elems & -> & Hlen). simpl. by apply bool_decide_eq_true.
Qed.

Lemma truthy_dict_get items key :
  Py.truthy (Py.dict_get items key) = true ↔
  ∃ v, Py.lookup key items = Some v ∧ Py.truthy v = true.
Proof.
  unfold Py.dict_get. destruct (Py.lookup key items) as [v|]; simpl; split.
  - eauto.
  - by intros (? & [= <-] & ?).
  - done.
  - by intros (? & [=] & _).
Qed.

Lemma extraction_accepts_valid text data :
  extraction_accepts text = Some data ↔ valid_extraction text data.
Proof.
  split.
  - intros (Hne & Hloads & items & -> & _ & Hf & Hp & Hc & Ha)%extraction_accepts_inv.
    split; [done|]. split; [done|]. exists items. split; [done|].
    by rewrite <- !is_list_of_len_dict_get, <- truthy_dict_get.
  - intros (Hne & Hloads & items & -> & Hf & Hp & Hc & Ha).
    unfold extraction_accepts. destruct text; [done|]. simpl. rewrite Hloads.
    apply is_list_of_len_dict_get in Hf, Hp, Hc. apply truthy_dict_get in Ha.
    by rewrite Hf, Hp, Hc, Ha.
Qed.

(** C3: [extract_answer_details] returns the parsed [data] exactly when
    the LLM call gave a content whose cleaned text is not empty, parses as
    JSON, and has a [facet] list of length 1, a [pros] list of length 3, a
    [cons] list of length 2 and a non-empty [answers]; in every other case,
    whatever else is right about the response, it returns [None]. *)
Theorem extract_answer_details_all_or_nothing answer_text question model st :
  let returned := (extract_answer_details answer_text question model st).1 in
  let valid data :=
    ∃ content,
      (chat_create (extraction_request answer_text question model) (world st)).1
        = Ok (Some content) ∧
      valid_extraction (strip_fences (PyStr.strip content)) data in
  (∀ data, returned = Ok (Some data) ↔ valid data) ∧
  ((∀ data, ¬ valid data) → returned = Ok None).
Proof.
  intros returned valid. subst returned valid. simpl.
  rewrite extract_answer_details_value.
  destruct (chat_create _ _).1 as [[content|]|e]; simpl.
  - split.
    + intros data. split.
      * intros [= Hacc]. exists content. split; [done|].
        by apply extraction_accepts_valid.
      * intros (? & [= <-] & Hvalid). f_equal. by apply extraction_accepts_valid.
    + intros Hnone. destruct (extraction_accepts _) as [data|] eqn:Hacc; [|done].
      destruct (Hnone data). exists content. split; [done|].
      by apply extraction_accepts_valid.
  - split; [|done]. intros data. split; [done|]. by intros (? & [=] & _).
  - split; [|done]. intros data. split; [done|]. by intros (? & [=] & _).
Qed.

(** C10: when the answer call succeeds with a content that is empty once
    trimmed, [generate_answer_for_question] returns the empty string, not
    [None]; the round of the loop then logs the answer-generation skip for
    that index, asks for no extraction, leaves the pairs as they were, and
    the loop goes on with the next question. *)
Theorem empty_answer_is_skipped
    raw_text answer_prompt model idx question rest qa st content w' :
  chat_create (answer_request raw_text question answer_prompt model) (world st)
    = (Ok (Some content), w') →
  PyStr.strip content = EmptyString →
  let st' :=
    mkState w'
      (trace st ++
         [Log INFO (processing_msg idx);
          ChatCompletion (answer_request raw_text question answer_prompt model);
          Log INFO "Answer generated for question.";
          Log ERROR (skip_answer_msg idx)])
      (jobs st) in
  (generate_answer_for_question raw_text question answer_prompt model st).1
    = Ok (Some EmptyString) ∧
  qa_round raw_text answer_prompt model idx question qa st = (Ok qa, st') ∧
  qa_loop raw_text answer_prompt model idx (question :: rest) qa st
    = qa_loop raw_text answer_prompt model (S idx) rest qa st'.
Proof.
  intros Hchat Hempty st'.
  assert (Hround :
    qa_round raw_text answer_prompt model idx question qa st = (Ok qa, st')).
  { rewrite qa_round_unfold. simpl.
    rewrite generate_answer_for_question_run. simpl. rewrite Hchat, Hempty. simpl.
    unfold with_event, st'. simpl. by rewrite <- !app_assoc. }
  split; [|split; [done|]].
  - rewrite generate_answer_for_question_run, Hchat. simpl. by rewrite Hempty.
  - simpl. unfold mbind, E_bind. by rewrite Hround.
Qed.

(** C8, as the code has it: a round of the loop sleeps one second
    exactly when it has appended a pair, that is when answer generation and
    extraction both gave a result, and a round that is skipped does not
    sleep; so the loop, which always returns, has slept one second once for
    every pair it appended. *)
Theorem sleeps_once_per_assembled_pair
    raw_text answer_prompt model idx questions qa st :
  (∀ question,
     ∃ st',
       (qa_round raw_text answer_prompt model idx question qa st = (Ok qa, st') ∧
        sleeps (trace st') = sleeps (trace st)) ∨
       (∃ p,
          qa_round raw_text answer_prompt model idx question qa st
            = (Ok (qa ++ [p]), st') ∧
          sleeps (trace st') = sleeps (trace st) ++ [1])) ∧
  ∃ appended st',
    qa_loop raw_text answer_prompt model idx questions qa st
      = (Ok (qa ++ appended), st') ∧
    appended =
      kept_pairs questions
        (calls_of_loop raw_text answer_prompt model idx questions qa st) ∧
    sleeps (trace st') = sleeps (trace st) ++ replicate (length appended) 1.
Proof.
  split.
  - intros question.
    destruct (qa_round_spec raw_text answer_prompt model idx question qa st)
      as (st' & delta & Htr & _ & _ & Hround).
    exists st'. rewrite Htr, sleeps_app.
    destruct (extraction_returned _) as [[data|]|].
    + destruct Hround as (items & _ & -> & ->). right. eauto.
    + destruct Hround as (-> & ->). left. by rewrite app_nil_r.
    + destruct Hround as (-> & ->). left. by rewrite app_nil_r.
  - destruct (qa_loop_spec raw_text answer_prompt model questions idx qa st)
      as (st' & delta & Hrun & Htr & _ & _ & Hs & _).
    eexists _, st'. split; [done|]. split; [done|].
    by rewrite Htr, sleeps_app, Hs.
Qed.

(** C6: the handler of [POST /api/generate] never comes to exist. Its
    [def] (lines 233-243) does what the claim says, but the annotation of
    line 234 names [BackgroundTasks], which line 8 does not import: whatever
    the libraries do, the load of the file ends in an exception before
    [generate_qna] is bound and before its route is added, so no submission
    reaches a handler; when every library call returns, the exception is
    the [NameError] for [BackgroundTasks], raised by the statement that
    starts on line 233. *)
Theorem generate_qna_is_never_defined libs as_main :
  (∃ e, (Load.load libs as_main).1 = Raise e) ∧
  ("generate_qna" ∉ Load.bound (Load.load libs as_main).2) ∧
  Load.routes (Load.load libs as_main).2 = [] ∧
  Load.dispatch libs as_main "POST" "/api/generate" = None ∧
  (Load.load Load.all_return as_main).1
    = Raise "name 'BackgroundTasks' is not defined" ∧
  Load.at_line (Load.load Load.all_return as_main).2 = 233.
Proof.
  destruct (load_stops_before_the_handlers libs as_main)
    as (e & m & Hload & Hroutes & _ & _ & Hname & _).
  unfold Load.dispatch. rewrite Hload, load_raises_name_error. simpl.
  split; [by exists e|]. done.
Qed.

(** C4: when question generation returns [None], the job is recorded as
    [failed] with no result, and after the question request nothing more
    happens than one log line: no answer request, no extraction request, no
    delivery. *)
Theorem failed_question_generation_fails_job
    job_id raw_text question_prompt answer_prompt st st1 :
  generate_bulk_questions raw_text question_prompt 20 "gpt-4" st = (Ok None, st1) →
  ∃ st',
    process_qna_job job_id raw_text question_prompt answer_prompt st = (Ok (), st') ∧
    jobs st' = <[job_id := mkJobEntry "failed" None]> (jobs st) ∧
    trace st' = trace st1 ++ [Log ERROR "Failed to generate questions."] ∧
    world st' = world st1 ∧
    chat_requests (trace st') =
      chat_requests (trace st) ++ [bulk_request raw_text question_prompt 20 "gpt-4"] ∧
    http_posts (trace st') = http_posts (trace st).
Proof.
  intros Hgen.
  rewrite process_qna_job_unfold, generate_final_qna_container_unfold, Hgen.
  destruct (generate_bulk_questions_frame raw_text question_prompt 20 "gpt-4" st)
    as (r & logs & Hlogs & Hframe).
  rewrite Hgen in Hframe. injection Hframe as <- ->.
  destruct (logs_silent _ Hlogs) as (Hc & _ & Hp).
  eexists. split; [reflexivity|]. simpl.
  split; [done|]. split; [done|]. split; [done|].
  rewrite <- !app_assoc, chat_requests_app, http_posts_app. simpl.
  rewrite chat_requests_app, http_posts_app, Hc, Hp. simpl.
  by rewrite app_nil_r.
Qed.

(** C5: when the orchestrator has produced the container and the delivery
    POST fails, by an exception or by a status outside 2xx, the job posts
    once, writes one error line to the log, and is recorded as [completed]
    with the whole serialised container as its result. *)
Theorem delivery_failure_keeps_completed
    job_id raw_text question_prompt answer_prompt st json st1 r w' :
  (∀ v, json_dumps v ≠ EmptyString) →
  generate_final_qna_container job_id raw_text question_prompt answer_prompt
    20 "gpt-4" st = (Ok (Some json), st1) →
  requests_post TARGET_API_URL json push_headers (world st1) = (r, w') →
  delivery_failed r →
  ∃ st' msg,
    process_qna_job job_id raw_text question_prompt answer_prompt st = (Ok (), st') ∧
    jobs st' = <[job_id := mkJobEntry "completed" (Some json)]> (jobs st) ∧
    (∃ qa, json = json_dumps (final_container job_id question_prompt answer_prompt qa)) ∧
    trace st' =
      trace st1 ++ [HttpPost TARGET_API_URL json push_headers; Log ERROR msg] ∧
    msg = match r with
          | Ok code => push_failed_msg job_id code
          | Raise e => push_error_msg job_id e
          end.
Proof.
  intros Hdumps Hrun Hpost Hfailed.
  destruct (generate_final_qna_container_frame job_id raw_text question_prompt
              answer_prompt 20 "gpt-4" st)
    as (r0 & st0 & delta & Hframe & _ & Hjobs & _ & Hjson).
  rewrite Hrun in Hframe. injection Hframe as <- <-.
  destruct (Hjson json eq_refl) as [qa ->].
  rewrite process_qna_job_unfold, Hrun, (truthy_nonempty _ (Hdumps _)), Hpost.
  simpl. rewrite Hjobs.
  destruct r as [code|e]; simpl in *.
  - rewrite bool_decide_true by lia.
    eexists _, _. split; [reflexivity|]. simpl. rewrite <- app_assoc. eauto.
  - eexists _, _. split; [reflexivity|]. simpl. rewrite <- app_assoc. eauto.
Qed.

Lemma kept_pairs_questions questions :
  ∀ calls,
    Forall calls_shaped calls →
    pair_question <$> kept_pairs questions calls
      = assembled_questions questions calls.
Proof.
  unfold assembled_questions.
  induction questions as [|q questions IH]; intros [|c calls] Hshaped; simpl;
    try done.
  apply Forall_cons in Hshaped as [Hc Hshaped].
  rewrite filter_cons. specialize (IH calls Hshaped).
  case_decide as Hd; unfold round_assembled in Hd; simpl in Hd;
    destruct (extraction_returned c) as [[data|]|] eqn:Hext; simpl in *.
  - destruct (Hc data Hext) as [items ->]. simpl. by f_equal.
  - by destruct Hd as [? [=]].
  - by destruct Hd as [? [=]].
  - destruct Hd. eauto.
  - done.
  - done.
Qed.

Lemma calls_of_round_valid raw_text answer_prompt model idx question st :
  calls_valid (calls_of_round raw_text answer_prompt model idx question st).
Proof.
  intros data. unfold calls_of_round. simpl.
  destruct (generate_answer_for_question _ _ _ _ _) as [[[text|]|e] st1]; try done.
  destruct (PyStr.truthy text); try done.
  destruct (extract_answer_details _ _ _ _) as [[[d|]|e] st2] eqn:Hex; try done.
  simpl. intros [= <-].
  pose proof (extract_answer_details_value text question model st1) as Hv.
  rewrite Hex in Hv. simpl in Hv.
  destruct (chat_create _ _).1 as [[content|]|e]; try done.
  injection Hv as Hv. symmetry in Hv. apply extraction_accepts_valid in Hv. eauto.
Qed.

Lemma kept_pairs_well_formed questions :
  ∀ calls,
    Forall calls_valid calls →
    Forall well_formed_pair (kept_pairs questions calls).
Proof.
  induction questions as [|q questions IH]; intros [|c calls] Hvalid; simpl;
    try done.
  apply Forall_cons in Hvalid as [Hc Hvalid].
  destruct (extraction_returned c) as [[[| | | | | |items]|]|] eqn:Hext;
    try (by apply IH).
  constructor; [|by apply IH].
  destruct (Hc _ Hext)
    as (text & _ & _ & items' & [= <-] & (facet & Hf & ?) & (pros & Hp & ?) &
        (cons & Hc' & ?) & answers & Ha & ?).
  exists q, answers, facet, pros, cons. unfold qa_pair_of, Py.dict_get.
  by rewrite Hf, Hp, Hc', Ha.
Qed.

(** The dictionary of lines 159-166 read back: the id and the prompts
    under their keys, the pairs under [data.qa]. *)
Lemma final_container_holds container_id question_prompt answer_prompt qa :
  document_holds (final_container container_id question_prompt answer_prompt qa)
    container_id question_prompt answer_prompt qa.
Proof. by repeat split. Qed.

(** C1: when question generation gives its 20 questions and, in the run of
    the loop, every round gets a non-empty answer and an extraction except
    round [k] (counted from 0, so [k = 4] for question 5), whose extraction
    returns [None], the orchestrator returns the serialisation of a
    document that holds, under [data.qa], 19 well-formed pairs, those built
    from the extractions of the other questions in their order, next to
    the job id and the prompts; the count mismatch is logged as a warning,
    and the job is recorded as [completed] with that serialisation as its
    result. *)
Theorem one_failed_extraction_still_completes
    job_id raw_text question_prompt answer_prompt st questions st1 k :
  (∀ v, json_dumps v ≠ EmptyString) →
  generate_bulk_questions raw_text question_prompt 20 "gpt-4" st
    = (Ok (Some questions), st1) →
  k < 20 →
  (∀ i c,
     calls_of_orchestration raw_text question_prompt answer_prompt "gpt-4" st !! i
       = Some c →
     if decide (i = k) then round_extraction_failed c else round_succeeded c) →
  ∃ doc qa st',
    process_qna_job job_id raw_text question_prompt answer_prompt st = (Ok (), st') ∧
    length questions = 20 ∧
    qa = kept_pairs questions
           (calls_of_orchestration raw_text question_prompt answer_prompt "gpt-4" st) ∧
    length qa = 19 ∧
    pair_question <$> qa = delete k questions ∧
    Forall well_formed_pair qa ∧
    document_holds doc job_id question_prompt answer_prompt qa ∧
    (generate_final_qna_container job_id raw_text question_prompt answer_prompt
       20 "gpt-4" st).1 = Ok (Some (json_dumps doc)) ∧
    Log WARNING "Expected 20 QA pairs but only assembled 19." ∈ trace st' ∧
    jobs st' =
      <[job_id := mkJobEntry "completed" (Some (json_dumps doc))]> (jobs st).
Proof.
  intros Hdumps Hgen Hk Hcalls.
  pose proof (generate_bulk_questions_some _ _ _ _ _ _ _ Hgen) as Hlen.
  unfold calls_of_orchestration in Hcalls. rewrite Hgen in Hcalls.
  fold (generated_msg (length questions)) in Hcalls.
  set (st2 := with_event st1 _) in Hcalls.
  destruct (qa_loop_spec raw_text answer_prompt "gpt-4" questions 1 [] st2)
    as (st3 & delta & Hloop & Htr & Hjobs & _ & _ & Hclen & Hshaped).
  simpl in Hloop.
  set (qa := kept_pairs questions _) in Hloop.
  assert (Hqs : pair_question <$> qa = delete k questions)
    by by apply kept_pairs_all_but_one.
  assert (Hqa : length qa = 19).
  { rewrite <- (length_fmap pair_question), Hqs, length_delete, Hlen; [done|].
    apply lookup_lt_is_Some. lia. }
  assert (Hwf : Forall well_formed_pair qa).
  { apply kept_pairs_well_formed, calls_of_loop_Forall, calls_of_round_valid. }
  destruct (generate_bulk_questions_frame raw_text question_prompt 20 "gpt-4" st)
    as (r & logs & _ & Hframe).
  rewrite Hgen in Hframe. injection Hframe as _ Hst1.
  assert (Hrun :
    generate_final_qna_container job_id raw_text question_prompt answer_prompt
      20 "gpt-4" st =
    (Ok (Some (json_dumps (final_container job_id question_prompt answer_prompt qa))),
     with_event st3 (Log WARNING (mismatch_msg 20 19)))).
  { rewrite generate_final_qna_container_unfold, Hgen.
    destruct questions as [|q qs]; [done|].
    fold st2. rewrite Hloop, Hqa. by rewrite bool_decide_true by lia. }
  destruct (process_qna_job_completes _ _ _ _ _ _ _ Hrun (Hdumps _))
    as (st' & extra & Hjob & _ & Htr' & _ & Hjobs').
  exists (final_container job_id question_prompt answer_prompt qa), qa, st'.
  split; [done|]. split; [done|].
  split; [by unfold calls_of_orchestration; rewrite Hgen|].
  split; [done|]. split; [done|]. split; [done|].
  split; [apply final_container_holds|]. split; [by rewrite Hrun|].
  split.
  - rewrite Htr'. simpl. apply elem_of_app. left. apply elem_of_app. right.
    apply list_elem_of_singleton. reflexivity.
  - rewrite Hjobs'. simpl. rewrite Hjobs. unfold st2. simpl. by rewrite Hst1.
Qed.

(** C7: the handler of [GET /api/status/{job_id}] never comes to exist
    either. Its [def] (lines 245-249) answers 404 for an id that is not in
    [jobs] and the entry otherwise, but whatever the libraries do the load
    of the file has ended by the statement of line 233: [get_status] is
    never bound, its route is never added, the application is never
    served, and no status query reaches a handler. *)
Theorem get_status_is_never_defined libs as_main :
  Load.at_line (Load.load libs as_main).2 ≤ 233 ∧
  ("get_status" ∉ Load.bound (Load.load libs as_main).2) ∧
  Load.serving (Load.load libs as_main).2 = false ∧
  Load.dispatch libs as_main "GET" "/api/status/{job_id}" = None.
Proof.
  destruct (load_stops_before_the_handlers libs as_main)
    as (e & m & Hload & _ & Hserving & Hline & _ & Hname).
  unfold Load.dispatch. by rewrite Hload.
Qed.

(** ** Further properties of the code *)

(** X1: the job never raises, writes one entry of [jobs], its own, and
    what it writes is decided by question generation alone: [failed] with
    no result when that returned [None], and otherwise [completed] with the
    serialisation of a document that holds the job id, the two prompts and,
    under [data.qa], the pairs of the rounds that got an extraction,
    however many of them there are. *)
Theorem job_entry_decided_by_question_generation
    job_id raw_text question_prompt answer_prompt st :
  (∀ v, json_dumps v ≠ EmptyString) →
  ∃ entry st',
    process_qna_job job_id raw_text question_prompt answer_prompt st = (Ok (), st') ∧
    jobs st' = <[job_id := entry]> (jobs st) ∧
    match (generate_bulk_questions raw_text question_prompt 20 "gpt-4" st).1 with
    | Ok (Some questions) =>
        ∃ doc,
          entry = mkJobEntry "completed" (Some (json_dumps doc)) ∧
          document_holds doc job_id question_prompt answer_prompt
            (kept_pairs questions
               (calls_of_orchestration raw_text question_prompt answer_prompt
                  "gpt-4" st))
    | _ => entry = mkJobEntry "failed" None
    end.
Proof.
  intros Hdumps.
  destruct (generate_bulk_questions_trace raw_text question_prompt 20 "gpt-4" st)
    as (Hjobs & _).
  destruct (generate_bulk_questions_frame raw_text question_prompt 20 "gpt-4" st)
    as (r & logs & _ & Hgen).
  rewrite Hgen in Hjobs |- *. simpl in Hjobs |- *.
  destruct r as [questions|].
  - destruct (orchestration_summary job_id raw_text question_prompt answer_prompt
                20 "gpt-4" st questions _ Hgen)
      as (st1 & Hrun & Hjobs1 & _).
    rewrite (process_qna_job_delivers _ _ _ _ _ _ _ Hrun (Hdumps _)).
    eexists _, _. split; [reflexivity|]. simpl. split; [by rewrite Hjobs1|].
    eexists. split; [reflexivity|]. apply final_container_holds.
  - rewrite (process_qna_job_without_questions _ _ _ _ _ _ Hgen).
    eexists _, _. split; [reflexivity|]. done.
Qed.


(** X3: when question generation gives its 20 questions and every round
    gets a non-empty answer and an extraction, the document the job records
    holds, under [data.qa], 20 pairs, one per question in the order asked,
    every one well formed, next to the job id and the prompts; no warning
    is logged, and the job is recorded as [completed]. *)
Theorem all_rounds_succeed_full_container
    job_id raw_text question_prompt answer_prompt st questions st1 :
  (∀ v, json_dumps v ≠ EmptyString) →
  generate_bulk_questions raw_text question_prompt 20 "gpt-4" st
    = (Ok (Some questions), st1) →
  Forall round_succeeded
    (calls_of_orchestration raw_text question_prompt answer_prompt "gpt-4" st) →
  ∃ doc qa st',
    process_qna_job job_id raw_text question_prompt answer_prompt st = (Ok (), st') ∧
    document_holds doc job_id question_prompt answer_prompt qa ∧
    length qa = 20 ∧
    pair_question <$> qa = questions ∧
    Forall well_formed_pair qa ∧
    warnings (trace st') = warnings (trace st) ∧
    jobs st' =
      <[job_id := mkJobEntry "completed" (Some (json_dumps doc))]> (jobs st).
Proof.
  intros Hdumps Hgen Hall.
  destruct (orchestration_summary job_id raw_text question_prompt answer_prompt
              20 "gpt-4" st questions _ Hgen)
    as (st2 & Hrun & Hjobs & _ & Hwarn & _ & Hlen & Hclen & Hshaped).
  set (calls := calls_of_orchestration _ _ _ _ _) in *.
  set (qa := kept_pairs questions calls) in *.
  assert (Hqs : pair_question <$> qa = questions)
    by (apply kept_pairs_all; [congruence|done..]).
  assert (Hqa : length qa = 20) by by rewrite <- (length_fmap pair_question), Hqs.
  assert (Hvalid : Forall calls_valid calls).
  { subst calls. unfold calls_of_orchestration. rewrite Hgen.
    apply calls_of_loop_Forall, calls_of_round_valid. }
  rewrite bool_decide_false, app_nil_r in Hwarn by (by rewrite Hqa; intros []).
  rewrite (process_qna_job_delivers _ _ _ _ _ _ _ Hrun (Hdumps _)).
  exists (final_container job_id question_prompt answer_prompt qa), qa.
  eexists. split; [reflexivity|]. simpl.
  split; [apply final_container_holds|].
  split; [done|]. split; [done|]. split; [by apply kept_pairs_well_formed|].
  split; [|by rewrite Hjobs].
  destruct (plain_logs_silent _ (delivery_log_plain job_id
    (requests_post TARGET_API_URL
       (json_dumps (final_container job_id question_prompt answer_prompt qa))
       push_headers (world st2)).1)) as (_ & _ & _ & Hw).
  rewrite warnings_app. simpl. by rewrite Hw, Hwarn, app_nil_r.
Qed.

Lemma round_requests_bounded raw_text answer_prompt llm questions :
  ∀ calls,
    let sent :=
      mjoin (zip_with (round_requests raw_text answer_prompt llm) questions calls) in
    length sent ≤ 2 * length questions ∧
    Forall (λ req, model req = llm) sent.
Proof.
  induction questions as [|q questions IH]; intros calls sent; subst sent.
  { simpl. split; [lia|done]. }
  destruct calls as [|c calls]; [simpl; split; [lia|done]|].
  destruct (IH calls) as [Hlen Hall].
  change (mjoin (zip_with (round_requests raw_text answer_prompt llm)
                   (q :: questions) (c :: calls)))
    with (round_requests raw_text answer_prompt llm q c ++
          mjoin (zip_with (round_requests raw_text answer_prompt llm) questions calls)).
  assert (Hround :
    length (round_requests raw_text answer_prompt llm q c) ≤ 2 ∧
    Forall (λ req, model req = llm) (round_requests raw_text answer_prompt llm q c)).
  { unfold round_requests.
    destruct (answer_returned c) as [text|]; [destruct (PyStr.truthy text)|];
      simpl; (split; [lia|]); by repeat constructor. }
  destruct Hround as [Hlen1 Hall1].
  rewrite length_app. change (length (q :: questions)) with (S (length questions)).
  split; [lia|]. by apply Forall_app.
Qed.

(** X4: the LLM requests of an orchestration, in the order sent: the
    request for 20 questions, whatever [num_pairs] is, and then, question
    after question, the answer request for the question followed, when the
    answer came back non-empty, by the extraction request carrying that
    answer; nothing after the first request when question generation
    returned [None]. There are at most 41 of them and all name the model
    the orchestrator was given. *)
Theorem requests_follow_the_questions
    container_id raw_text question_prompt answer_prompt num_pairs llm st :
  let run :=
    generate_final_qna_container container_id raw_text question_prompt
      answer_prompt num_pairs llm st in
  let sent :=
    bulk_request raw_text question_prompt 20 llm ::
    match (generate_bulk_questions raw_text question_prompt 20 llm st).1 with
    | Ok (Some questions) =>
        mjoin (zip_with (round_requests raw_text answer_prompt llm) questions
                 (calls_of_orchestration raw_text question_prompt answer_prompt
                    llm st))
    | _ => []
    end in
  chat_requests (trace run.2) = chat_requests (trace st) ++ sent ∧
  length sent ≤ 41 ∧
  Forall (λ req, model req = llm) sent.
Proof.
  intros run sent. subst run sent.
  destruct (generate_bulk_questions_trace raw_text question_prompt 20 llm st)
    as (_ & _ & _ & Hreq).
  destruct (generate_bulk_questions_frame raw_text question_prompt 20 llm st)
    as (r & logs & _ & Hgen).
  rewrite Hgen in Hreq |- *. simpl in Hreq |- *.
  destruct r as [questions|].
  - destruct (orchestration_summary container_id raw_text question_prompt
                answer_prompt num_pairs llm st questions _ Hgen)
      as (st1 & Hrun & _ & _ & _ & Hsent & Hlen & _).
    rewrite Hrun. simpl. rewrite Hsent.
    destruct (round_requests_bounded raw_text answer_prompt llm questions
                (calls_of_orchestration raw_text question_prompt answer_prompt llm st))
      as [Hbound Hall].
    split; [done|]. simpl. split; [lia|]. by constructor.
  - rewrite generate_final_qna_container_unfold, Hgen. simpl.
    rewrite chat_requests_app, Hreq. simpl. rewrite app_nil_r.
    split; [done|]. split; [lia|]. by repeat constructor.
Qed.

Lemma container_of_orchestration
    container_id raw_text question_prompt answer_prompt num_pairs llm st json st' :
  generate_final_qna_container container_id raw_text question_prompt answer_prompt
    num_pairs llm st = (Ok (Some json), st') →
  ∃ questions st1,
    generate_bulk_questions raw_text question_prompt 20 llm st
      = (Ok (Some questions), st1) ∧
    json = json_dumps
             (final_container container_id question_prompt answer_prompt
                (kept_pairs questions
                   (calls_of_orchestration raw_text question_prompt answer_prompt
                      llm st))).
Proof.
  intros Hrun.
  destruct (generate_bulk_questions_frame raw_text question_prompt 20 llm st)
    as ([questions|] & logs & _ & Hgen).
  - destruct (orchestration_summary container_id raw_text question_prompt
                answer_prompt num_pairs llm st questions _ Hgen)
      as (st2 & Hrun' & _).
    rewrite Hrun in Hrun'. injection Hrun' as -> _. eauto.
  - by rewrite generate_final_qna_container_unfold, Hgen in Hrun.
Qed.

Lemma container_pairs_shape
    container_id raw_text question_prompt answer_prompt num_pairs llm st json st' :
  generate_final_qna_container container_id raw_text question_prompt answer_prompt
    num_pairs llm st = (Ok (Some json), st') →
  ∃ qa,
    json = json_dumps (final_container container_id question_prompt answer_prompt qa) ∧
    Forall well_formed_pair qa ∧
    length qa ≤ 20 ∧
    document_holds (final_container container_id question_prompt answer_prompt qa)
      container_id question_prompt answer_prompt qa.
Proof.
  intros (questions & st1 & Hgen & ->)%container_of_orchestration.
  eexists. split; [reflexivity|].
  pose proof (generate_bulk_questions_some _ _ _ _ _ _ _ Hgen) as Hlen.
  split; [|split; [|apply final_container_holds]].
  - apply kept_pairs_well_formed. unfold calls_of_orchestration. rewrite Hgen.
    apply calls_of_loop_Forall, calls_of_round_valid.
  - rewrite <- Hlen, <- (length_fmap pair_question).
    apply sublist_length, kept_pairs_sublist.
Qed.

(** X5: every pair of a container the orchestrator returns has the five
    keys [question], [answers], [facet], [pros], [cons] and no other, one
    facet, three pros, two cons and an [answers] that is not empty; extra
    keys of an extraction are not carried over. There are at most 20
    pairs, and they are what the document holds under [data.qa]. *)
Theorem container_pairs_are_well_formed
    container_id raw_text question_prompt answer_prompt num_pairs llm st json st' :
  generate_final_qna_container container_id raw_text question_prompt answer_prompt
    num_pairs llm st = (Ok (Some json), st') →
  ∃ qa,
    json = json_dumps (final_container container_id question_prompt answer_prompt qa) ∧
    Forall well_formed_pair qa ∧
    length qa ≤ 20 ∧
    document_holds (final_container container_id question_prompt answer_prompt qa)
      container_id question_prompt answer_prompt qa.
Proof. apply container_pairs_shape. Qed.

(** X6: whichever rounds fail, the pairs the returned document holds
    under [data.qa] are those of the questions whose round got an
    extraction, one pair per such question, in the order the questions were
    generated; the questions of the other rounds are absent and no question
    is moved or repeated. *)
Theorem container_keeps_the_assembled_questions
    container_id raw_text question_prompt answer_prompt num_pairs llm st
    questions st1 :
  generate_bulk_questions raw_text question_prompt 20 llm st
    = (Ok (Some questions), st1) →
  let calls :=
    calls_of_orchestration raw_text question_prompt answer_prompt llm st in
  ∃ doc qa st',
    generate_final_qna_container container_id raw_text question_prompt
      answer_prompt num_pairs llm st
      = (Ok (Some (json_dumps doc)), st') ∧
    document_holds doc container_id question_prompt answer_prompt qa ∧
    length calls = length questions ∧
    pair_question <$> qa = assembled_questions questions calls ∧
    pair_question <$> qa `sublist_of` questions.
Proof.
  intros Hgen calls.
  destruct (orchestration_summary container_id raw_text question_prompt
              answer_prompt num_pairs llm st questions _ Hgen)
    as (st' & Hrun & _ & _ & _ & _ & Hlen & Hclen & Hshaped).
  eexists _, _, st'. split; [exact Hrun|].
  split; [apply final_container_holds|]. split; [by rewrite Hlen|].
  split; [by apply kept_pairs_questions|apply kept_pairs_sublist].
Qed.




(** X10: fence removal undoes fencing. When the trimmed response is a
    body between an opening [```json] and a closing [```], the cleaned text
    is the body with the white space around it removed, whatever the body
    holds. *)
Theorem strip_fences_gives_the_trimmed_body (content body : string) :
  PyStr.strip content = fence_open +:+ body +:+ fence_close →
  strip_fences (PyStr.strip content) = PyStr.strip body.
Proof. apply strip_fences_trimmed. Qed.

(** X11: a fenced response is judged like its bare body. When the trimmed
    response is a body between [```json] and [```], question generation
    returns what the count check makes of [json.loads] on the trimmed
    body, and the extractor returns the data exactly when the trimmed body
    is a valid extraction. *)
Theorem fenced_response_is_read_as_its_body
    (content body : string) raw_text question_prompt n answer_text question llm st :
  PyStr.strip content = fence_open +:+ body +:+ fence_close →
  ((chat_create (bulk_request raw_text question_prompt n llm) (world st)).1
     = Ok (Some content) →
   (generate_bulk_questions raw_text question_prompt n llm st).1 =
     match json_loads (PyStr.strip body) with
     | Ok (JArr elems) =>
         if bool_decide (length elems = n) then Ok (Some elems) else Ok None
     | _ => Ok None
     end) ∧
  ((chat_create (extraction_request answer_text question llm) (world st)).1
     = Ok (Some content) →
   ∀ data,
     (extract_answer_details answer_text question llm st).1 = Ok (Some data) ↔
     valid_extraction (PyStr.strip body) data).
Proof.
  intros Hcontent%strip_fences_trimmed. split.
  - intros Hchat. by rewrite generate_bulk_questions_value, Hchat, Hcontent.
  - intros Hchat data.
    rewrite extract_answer_details_value, Hchat, Hcontent.
    rewrite <- extraction_accepts_valid. split; [by intros [= ->]|by intros ->].
Qed.

(** X12: question generation returns a list exactly when the LLM call gave
    a content whose cleaned text parses to a list of [num_questions]
    elements; a call that raises, a message without content, text that does
    not parse, a parsed value that is no list (a dictionary, a string, a
    number) and a list of another length all end in [None], and no
    exception leaves the function. *)
Theorem generate_bulk_questions_all_or_nothing
    raw_text question_prompt num_questions llm st :
  let returned :=
    (generate_bulk_questions raw_text question_prompt num_questions llm st).1 in
  (∀ elems,
     returned = Ok (Some elems) ↔
     ∃ content,
       (chat_create (bulk_request raw_text question_prompt num_questions llm)
          (world st)).1 = Ok (Some content) ∧
       json_loads (strip_fences (PyStr.strip content)) = Ok (JArr elems) ∧
       length elems = num_questions) ∧
  (returned = Ok None ∨ ∃ elems, returned = Ok (Some elems)).
Proof.
  intros returned. subst returned. rewrite generate_bulk_questions_value.
  destruct (chat_create _ _).1 as [[content|]|e]; simpl.
  - split.
    + intros elems. split.
      * destruct (json_loads _) as [[| | | | |elems'|]|e] eqn:Hloads; try done.
        case_bool_decide as Hlen; [|done]. intros [= <-]. by exists content.
      * intros (content' & [= <-] & -> & Hlen). by rewrite bool_decide_true.
    + destruct (json_loads _) as [[| | | | |elems'|]|e]; try (by left).
      case_bool_decide; [right; eauto|by left].
  - split; [|by left]. intros elems. split; [done|]. by intros (? & [=] & _).
  - split; [|by left]. intros elems. split; [done|]. by intros (? & [=] & _).
Qed.

Lemma qa_round_skip_logged raw_text answer_prompt model idx question qa st :
  let c := calls_of_round raw_text answer_prompt model idx question st in
  extraction_returned c ≠ None ∧ ¬ round_assembled c ∨
  extraction_returned c = None →
  last (trace (qa_round raw_text answer_prompt model idx question qa st).2)
    = Some (skip_line idx c).
Proof.
  rewrite qa_round_unfold. unfold calls_of_round, skip_line, round_assembled. simpl.
  destruct (generate_answer_for_question _ _ _ _ _) as [[[text|]|e] st1] eqn:Hans;
    simpl.
  - destruct (PyStr.truthy text); simpl; [|intros _; apply last_snoc].
    destruct (extract_answer_details _ _ _ _) as [[[data|]|e] st2] eqn:Hex; simpl.
    + intros [[_ Hnot]|]; [|done]. destruct Hnot. eauto.
    + intros _. apply last_snoc.
    + destruct (extract_answer_details_frame text question model st1)
        as (r & logs & _ & Hframe). by rewrite Hex in Hframe.
  - intros _. apply last_snoc.
  - destruct (generate_answer_for_question_frame raw_text question answer_prompt
                model (with_event st (Log INFO (processing_msg idx))))
      as (r & logs & _ & Hframe).
    unfold processing_msg in Hframe. by rewrite Hans in Hframe.
Qed.

(** X13: every question the loop drops leaves an error line that names
    it: for each round that did not get an extraction, the log holds the
    skip line with the number of that question, counted from the start
    index (1 in the orchestrator), saying whether the answer or the
    extraction failed. *)
Theorem dropped_question_is_logged_by_number
    raw_text answer_prompt model questions :
  ∀ idx qa st i c,
    calls_of_loop raw_text answer_prompt model idx questions qa st !! i = Some c →
    ¬ round_assembled c →
    skip_line (idx + i) c
      ∈ trace (qa_loop raw_text answer_prompt model idx questions qa st).2.
Proof.
  induction questions as [|question questions IH]; intros idx qa st i c; [done|].
  simpl. unfold mbind, E_bind.
  destruct (qa_round_total raw_text answer_prompt model idx question qa st)
    as (qa' & st1 & Hround).
  rewrite Hround.
  destruct (qa_loop_spec raw_text answer_prompt model questions (S idx) qa' st1)
    as (st2 & delta & Hloop & Htr & _).
  destruct i as [|i]; simpl.
  - intros [= <-] Hnot. rewrite Nat.add_0_r, Hloop. simpl. rewrite Htr.
    apply elem_of_app. left.
    pose proof (qa_round_skip_logged raw_text answer_prompt model idx question
                  qa st) as Hlast.
    rewrite Hround in Hlast. simpl in Hlast.
    apply last_Some_elem_of, Hlast.
    destruct (extraction_returned
                (calls_of_round raw_text answer_prompt model idx question st))
      as [e|] eqn:Hext; [left|by right].
    split; [done|exact Hnot].
  - intros Hi Hnot. replace (idx + S i) with (S idx + i) by lia.
    by apply IH.
Qed.

End Verification.

(** ** The properties on the scripted collaborators *)

Module Examples.

#[local] Existing Instance Mock.collaborators.

Lemma pretty_N_go_nonempty (x : N) (s : string) :
  s ≠ EmptyString → pretty_N_go x s ≠ EmptyString.
Proof.
  revert s. induction (N.lt_wf_0 x) as [x _ IH]; intros s Hs.
  destruct (decide (x = 0%N)) as [->|Hx]; [by rewrite pretty_N_go_0|].
  rewrite pretty_N_go_step by lia. apply IH; [|done].
  apply N.div_lt; lia.
Qed.

Lemma pretty_Z_nonempty (z : Z) : pretty z ≠ EmptyString.
Proof.
  assert (Hpos : ∀ p : positive, pretty p ≠ EmptyString).
  { intros p. unfold pretty, pretty_positive, pretty, pretty_N.
    case_decide; [done|]. rewrite pretty_N_go_step by lia.
    by apply pretty_N_go_nonempty. }
  destruct z as [|p|p]; [done|apply Hpos|].
  unfold pretty, pretty_Z. by destruct (pretty p).
Qed.

(** The printer of the mock never prints the empty text, as [json.dumps]
    never does. *)
Lemma dumps_nonempty (v : JSON) : Mock.dumps v ≠ EmptyString.
Proof.
  destruct v as [|[]| | | | |]; try done.
  apply pretty_Z_nonempty.
Qed.

(** C9 on a response of four elements, none of them a string. *)
Lemma generate_bulk_questions_ignores_element_types_witness :
  (generate_bulk_questions "ctx" "qp" 4 "gpt-4o"
     (Mock.start [Ok (Some "[1, {}, [null], true]")] (Ok 200%Z))).1
  = Ok (Some [JInt 1; JObj []; JArr [JNull]; JBool true]).
Proof.
  apply (generate_bulk_questions_ignores_element_types
           "ctx" "qp" 4 "gpt-4o" _ "[1, {}, [null], true]"
           (Mock.mkOutside [] (Ok 200%Z))).
  - reflexivity.
  - vm_compute. reflexivity.
  - reflexivity.
Defined.

(** C2 on fenced responses of three, two and four questions, and on a
    response that is not JSON, three questions being asked for. *)
Lemma generate_bulk_questions_exact_count_witness :
  (generate_bulk_questions "ctx" "qp" 3 "gpt-4o"
     (Mock.start [Ok (Some (Mock.fenced (Mock.questions_text 3)))] (Ok 200%Z))).1
    = Ok (Some [JStr "Q1?"; JStr "Q2?"; JStr "Q3?"]) ∧
  (generate_bulk_questions "ctx" "qp" 3 "gpt-4o"
     (Mock.start [Ok (Some (Mock.fenced (Mock.questions_text 2)))] (Ok 200%Z))).1
    = Ok None ∧
  (generate_bulk_questions "ctx" "qp" 3 "gpt-4o"
     (Mock.start [Ok (Some (Mock.fenced (Mock.questions_text 4)))] (Ok 200%Z))).1
    = Ok None ∧
  (generate_bulk_questions "ctx" "qp" 3 "gpt-4o"
     (Mock.start [Ok (Some "Here are your questions!")] (Ok 200%Z))).1
    = Ok None.
Proof.
  pose (w := Mock.mkOutside [] (Ok 200%Z)).
  split; [|split; [|split]].
  - destruct (@generate_bulk_questions_exact_count _ Mock.collaborators "ctx" "qp" 3 "gpt-4o"
                (Mock.start [Ok (Some (Mock.fenced (Mock.questions_text 3)))] (Ok 200%Z))
                (Mock.fenced (Mock.questions_text 3)) w eq_refl) as (Hexact & _ & _).
    apply Hexact.
    + vm_compute. reflexivity.
    + repeat constructor; by eexists.
    + reflexivity.
  - destruct (@generate_bulk_questions_exact_count _ Mock.collaborators "ctx" "qp" 3 "gpt-4o"
                (Mock.start [Ok (Some (Mock.fenced (Mock.questions_text 2)))] (Ok 200%Z))
                (Mock.fenced (Mock.questions_text 2)) w eq_refl) as (_ & Hoff & _).
    apply (Hoff [JStr "Q1?"; JStr "Q2?"]).
    + vm_compute. reflexivity.
    + left. reflexivity.
  - destruct (@generate_bulk_questions_exact_count _ Mock.collaborators "ctx" "qp" 3 "gpt-4o"
                (Mock.start [Ok (Some (Mock.fenced (Mock.questions_text 4)))] (Ok 200%Z))
                (Mock.fenced (Mock.questions_text 4)) w eq_refl) as (_ & Hoff & _).
    apply (Hoff [JStr "Q1?"; JStr "Q2?"; JStr "Q3?"; JStr "Q4?"]).
    + vm_compute. reflexivity.
    + right. reflexivity.
  - destruct (@generate_bulk_questions_exact_count _ Mock.collaborators "ctx" "qp" 3 "gpt-4o"
                (Mock.start [Ok (Some "Here are your questions!")] (Ok 200%Z))
                "Here are your questions!" w eq_refl) as (_ & _ & Hbad).
    apply (Hbad "Expecting value"). vm_compute. reflexivity.
Defined.

(** C10 on an answer made of blanks. *)
Lemma empty_answer_is_skipped_witness :
  let st := Mock.start (Ok (Some "   ") :: Mock.good_round) (Ok 200%Z) in
  let st' :=
    mkState (Mock.mkOutside Mock.good_round (Ok 200%Z))
      [Log INFO (processing_msg 1);
       ChatCompletion (answer_request "ctx" (JStr "Q1?") "ap" "gpt-4");
       Log INFO "Answer generated for question.";
       Log ERROR (skip_answer_msg 1)]
      ∅ in
  (generate_answer_for_question "ctx" (JStr "Q1?") "ap" "gpt-4" st).1
    = Ok (Some EmptyString) ∧
  qa_round "ctx" "ap" "gpt-4" 1 (JStr "Q1?") [] st = (Ok [], st') ∧
  qa_loop "ctx" "ap" "gpt-4" 1 [JStr "Q1?"; JStr "Q2?"] [] st
    = qa_loop "ctx" "ap" "gpt-4" 2 [JStr "Q2?"] [] st'.
Proof.
  intros st st'.
  apply (empty_answer_is_skipped "ctx" "ap" "gpt-4" 1 (JStr "Q1?") [JStr "Q2?"] []
           st "   " (Mock.mkOutside Mock.good_round (Ok 200%Z))).
  - reflexivity.
  - vm_compute. reflexivity.
Defined.

(** C8 with a sleep after every question fails: of two questions the
    first gets no answer (the call raises), the second goes through; the
    loop sleeps once, not twice, and the round of the first question does
    not sleep. *)
Lemma no_sleep_after_a_skipped_question :
  let st := Mock.start (Raise "Rate limit reached." :: Mock.good_round) (Ok 200%Z) in
  let questions := [JStr "Q1?"; JStr "Q2?"] in
  sleeps (trace (qa_loop "ctx" "ap" "gpt-4" 1 questions [] st).2) = [1] ∧
  sleeps (trace (qa_round "ctx" "ap" "gpt-4" 1 (JStr "Q1?") [] st).2) = [] ∧
  sleeps (trace (qa_loop "ctx" "ap" "gpt-4" 1 questions [] st).2)
    ≠ replicate (length questions) 1.
Proof.
  intros st questions. split; [|split].
  - vm_compute. reflexivity.
  - vm_compute. reflexivity.
  - vm_compute. discriminate.
Qed.

(** C4 on a question response that is not JSON. *)
Lemma failed_question_generation_fails_job_witness :
  let st := Mock.start [Ok (Some "Sorry, I cannot do that.")] (Ok 200%Z) in
  ∃ st1 st',
    generate_bulk_questions "ctx" "qp" 20 "gpt-4" st = (Ok None, st1) ∧
    process_qna_job "job-1" "ctx" "qp" "ap" st = (Ok (), st') ∧
    jobs st' = <[ "job-1" := mkJobEntry "failed" None ]> (jobs st) ∧
    trace st' = trace st1 ++ [Log ERROR "Failed to generate questions."] ∧
    world st' = world st1 ∧
    chat_requests (trace st') =
      chat_requests (trace st) ++ [bulk_request "ctx" "qp" 20 "gpt-4"] ∧
    http_posts (trace st') = http_posts (trace st).
Proof.
  intros st.
  assert (Hgen : ∃ st1, generate_bulk_questions "ctx" "qp" 20 "gpt-4" st = (Ok None, st1)).
  { eexists. vm_compute. reflexivity. }
  destruct Hgen as [st1 Hgen]. exists st1.
  destruct (failed_question_generation_fails_job "job-1" "ctx" "qp" "ap" st st1 Hgen)
    as [st' Hjob].
  exists st'. split; [exact Hgen|exact Hjob].
Defined.

(** C5 on the script of twenty rounds and a delivery endpoint that
    answers 503. *)
Lemma delivery_failure_keeps_completed_witness :
  let st := Mock.start Mock.fifth_extraction_fails (Ok 503%Z) in
  let run := generate_final_qna_container "job-1" "ctx" "qp" "ap" 20 "gpt-4" st in
  ∃ json st' msg,
    run = (Ok (Some json), run.2) ∧
    process_qna_job "job-1" "ctx" "qp" "ap" st = (Ok (), st') ∧
    jobs st' = <[ "job-1" := mkJobEntry "completed" (Some json) ]> (jobs st) ∧
    (∃ qa, json = json_dumps (final_container "job-1" "qp" "ap" qa)) ∧
    trace st' =
      trace run.2 ++ [HttpPost TARGET_API_URL json push_headers; Log ERROR msg] ∧
    msg = push_failed_msg "job-1" 503.
Proof.
  intros st run.
  assert (Hrun : ∃ json, run = (Ok (Some json), run.2)).
  { eexists. vm_compute. reflexivity. }
  destruct Hrun as [json Hrun]. exists json.
  assert (Hpost : requests_post TARGET_API_URL json push_headers (world run.2)
                  = (Ok 503%Z, world run.2)).
  { change (requests_post TARGET_API_URL json push_headers (world run.2))
      with (Mock.delivery (world run.2), world run.2).
    vm_compute. reflexivity. }
  assert (Hfailed : delivery_failed (Ok 503%Z)).
  { unfold delivery_failed. clear. lia. }
  destruct (@delivery_failure_keeps_completed _ Mock.collaborators
              "job-1" "ctx" "qp" "ap" st json run.2 (Ok 503%Z) (world run.2)
              dumps_nonempty Hrun Hpost Hfailed)
    as (st' & msg & Hjob).
  exists st', msg. split; [exact Hrun|exact Hjob].
Defined.

(** C1 on the script whose fifth extraction is not JSON. *)
Lemma one_failed_extraction_still_completes_witness :
  let st := Mock.start Mock.fifth_extraction_fails (Ok 200%Z) in
  let questions := JStr <$> ((λ i, "Q" +:+ pretty i +:+ "?") <$> seq 1 20) in
  ∃ doc qa st',
    process_qna_job "job-1" "ctx" "qp" "ap" st = (Ok (), st') ∧
    length questions = 20 ∧
    qa = kept_pairs questions (calls_of_orchestration "ctx" "qp" "ap" "gpt-4" st) ∧
    length qa = 19 ∧
    pair_question <$> qa = delete 4 questions ∧
    Forall well_formed_pair qa ∧
    document_holds doc "job-1" "qp" "ap" qa ∧
    (generate_final_qna_container "job-1" "ctx" "qp" "ap" 20 "gpt-4" st).1
      = Ok (Some (json_dumps doc)) ∧
    Log WARNING "Expected 20 QA pairs but only assembled 19." ∈ trace st' ∧
    jobs st' =
      <[ "job-1" := mkJobEntry "completed" (Some (json_dumps doc)) ]> (jobs st).
Proof.
  intros st questions.
  pose (st1 := (generate_bulk_questions "ctx" "qp" 20 "gpt-4" st).2).
  assert (Hgen : generate_bulk_questions "ctx" "qp" 20 "gpt-4" st
                 = (Ok (Some questions), st1)).
  { vm_compute. reflexivity. }
  assert (Hcalls :
    extraction_fails_only_at 4 0
      (calls_of_orchestration "ctx" "qp" "ap" "gpt-4" st) = true).
  { vm_compute. reflexivity. }
  assert (Hk : 4 < 20) by (clear; lia).
  exact (@one_failed_extraction_still_completes _ Mock.collaborators
           "job-1" "ctx" "qp" "ap" st questions st1 4 dumps_nonempty Hgen Hk
           (extraction_fails_only_at_true 4 _ 0 Hcalls)).
Defined.

(** The extraction of section 8 of the specification: well formed, it is
    returned; with two facets, or with an empty [answers], it is dropped
    whatever the other fields hold. *)
Example extract_answer_details_accepts :
  (extract_answer_details "An answer." (JStr "Q1?") "gpt-4"
     (Mock.start [Ok (Some (Mock.fenced Mock.details_text))] (Ok 200%Z))).1
  = Ok (Some (JObj [("answers", JStr "Yes."); ("facet", JArr [JStr "f"]);
                    ("pros", JArr [JStr "p1"; JStr "p2"; JStr "p3"]);
                    ("cons", JArr [JStr "c1"; JStr "c2"])])).
Proof. vm_compute. reflexivity. Qed.

Example extract_answer_details_rejects_two_facets :
  (extract_answer_details "An answer." (JStr "Q1?") "gpt-4"
     (Mock.start
        [Ok (Some (Mock.details_with (Mock.quoted "Yes.")
                     ("[" +:+ Mock.quoted "f" +:+ ", " +:+ Mock.quoted "g" +:+ "]")))]
        (Ok 200%Z))).1
  = Ok None.
Proof. vm_compute. reflexivity. Qed.

Example extract_answer_details_rejects_empty_answers :
  (extract_answer_details "An answer." (JStr "Q1?") "gpt-4"
     (Mock.start
        [Ok (Some (Mock.details_with (Mock.quoted EmptyString)
                     ("[" +:+ Mock.quoted "f" +:+ "]")))]
        (Ok 200%Z))).1
  = Ok None.
Proof. vm_compute. reflexivity. Qed.


(** ** The further properties on the scripted collaborators *)

(** X1 on the script whose fifth extraction fails. *)
Lemma job_entry_decided_by_question_generation_witness :
  let st := Mock.start Mock.fifth_extraction_fails (Ok 200%Z) in
  ∃ entry st',
    process_qna_job "job-1" "ctx" "qp" "ap" st = (Ok (), st') ∧
    jobs st' = <[ "job-1" := entry ]> (jobs st) ∧
    match (generate_bulk_questions "ctx" "qp" 20 "gpt-4" st).1 with
    | Ok (Some questions) =>
        ∃ doc,
          entry = mkJobEntry "completed" (Some (json_dumps doc)) ∧
          document_holds doc "job-1" "qp" "ap"
            (kept_pairs questions
               (calls_of_orchestration "ctx" "qp" "ap" "gpt-4" st))
    | _ => entry = mkJobEntry "failed" None
    end.
Proof.
  intros st.
  exact (@job_entry_decided_by_question_generation _ Mock.collaborators
           "job-1" "ctx" "qp" "ap" st dumps_nonempty).
Defined.


(** X3 on the script whose twenty rounds all go well. *)
Lemma all_rounds_succeed_full_container_witness :
  let st := Mock.start Mock.every_round_succeeds (Ok 200%Z) in
  let questions := JStr <$> ((λ i, "Q" +:+ pretty i +:+ "?") <$> seq 1 20) in
  ∃ doc qa st',
    process_qna_job "job-1" "ctx" "qp" "ap" st = (Ok (), st') ∧
    document_holds doc "job-1" "qp" "ap" qa ∧
    length qa = 20 ∧
    pair_question <$> qa = questions ∧
    Forall well_formed_pair qa ∧
    warnings (trace st') = warnings (trace st) ∧
    jobs st' =
      <[ "job-1" := mkJobEntry "completed" (Some (json_dumps doc)) ]> (jobs st).
Proof.
  intros st questions.
  pose (st1 := (generate_bulk_questions "ctx" "qp" 20 "gpt-4" st).2).
  assert (Hgen : generate_bulk_questions "ctx" "qp" 20 "gpt-4" st
                 = (Ok (Some questions), st1)).
  { vm_compute. reflexivity. }
  assert (Hcalls :
    forallb round_succeededb
      (calls_of_orchestration "ctx" "qp" "ap" "gpt-4" st) = true).
  { vm_compute. reflexivity. }
  exact (@all_rounds_succeed_full_container _ Mock.collaborators
           "job-1" "ctx" "qp" "ap" st questions st1 dumps_nonempty Hgen
           (forallb_round_succeeded _ Hcalls)).
Defined.

(** X5 on the script whose fifth extraction fails. *)
Lemma container_pairs_are_well_formed_witness :
  let st := Mock.start Mock.fifth_extraction_fails (Ok 200%Z) in
  let run := generate_final_qna_container "job-1" "ctx" "qp" "ap" 20 "gpt-4" st in
  ∃ json qa,
    run = (Ok (Some json), run.2) ∧
    json = json_dumps (final_container "job-1" "qp" "ap" qa) ∧
    Forall well_formed_pair qa ∧
    length qa ≤ 20 ∧
    document_holds (final_container "job-1" "qp" "ap" qa) "job-1" "qp" "ap" qa.
Proof.
  intros st run.
  assert (Hrun : ∃ json, run = (Ok (Some json), run.2)).
  { eexists. vm_compute. reflexivity. }
  destruct Hrun as [json Hrun]. exists json.
  destruct (@container_pairs_are_well_formed _ Mock.collaborators
              "job-1" "ctx" "qp" "ap" 20 "gpt-4" st json run.2 Hrun)
    as (qa & Hqa).
  exists qa. split; [exact Hrun|exact Hqa].
Defined.

(** X6 on the script whose fifth extraction fails. *)
Lemma container_keeps_the_assembled_questions_witness :
  let st := Mock.start Mock.fifth_extraction_fails (Ok 200%Z) in
  let questions := JStr <$> ((λ i, "Q" +:+ pretty i +:+ "?") <$> seq 1 20) in
  let calls := calls_of_orchestration "ctx" "qp" "ap" "gpt-4" st in
  ∃ doc qa st',
    generate_final_qna_container "job-1" "ctx" "qp" "ap" 20 "gpt-4" st
      = (Ok (Some (json_dumps doc)), st') ∧
    document_holds doc "job-1" "qp" "ap" qa ∧
    length calls = length questions ∧
    pair_question <$> qa = assembled_questions questions calls ∧
    pair_question <$> qa `sublist_of` questions.
Proof.
  intros st questions.
  pose (st1 := (generate_bulk_questions "ctx" "qp" 20 "gpt-4" st).2).
  assert (Hgen : generate_bulk_questions "ctx" "qp" 20 "gpt-4" st
                 = (Ok (Some questions), st1)).
  { vm_compute. reflexivity. }
  exact (@container_keeps_the_assembled_questions _ Mock.collaborators
           "job-1" "ctx" "qp" "ap" 20 "gpt-4" st questions st1 Hgen).
Defined.



(** X10 on a fenced list with blanks and line ends around it. *)
Lemma strip_fences_gives_the_trimmed_body_witness :
  let body := PyStr.nl +:+ "[1, 2]" +:+ PyStr.nl in
  let content := "  " +:+ fence_open +:+ body +:+ fence_close +:+ PyStr.nl in
  PyStr.strip content = fence_open +:+ body +:+ fence_close ∧
  strip_fences (PyStr.strip content) = PyStr.strip body ∧
  PyStr.strip body = "[1, 2]".
Proof.
  intros body content.
  assert (Hcontent : PyStr.strip content = fence_open +:+ body +:+ fence_close).
  { vm_compute. reflexivity. }
  split; [exact Hcontent|]. split.
  - exact (strip_fences_gives_the_trimmed_body content body Hcontent).
  - vm_compute. reflexivity.
Defined.

(** X11 on a fenced list of two questions and on a fenced extraction. *)
Lemma fenced_response_is_read_as_its_body_witness :
  let questions := PyStr.nl +:+ Mock.questions_text 2 +:+ PyStr.nl in
  let details := PyStr.nl +:+ Mock.details_text +:+ PyStr.nl in
  let fenced body := fence_open +:+ body +:+ fence_close in
  (generate_bulk_questions "ctx" "qp" 2 "gpt-4"
     (Mock.start [Ok (Some (fenced questions))] (Ok 200%Z))).1
    = Ok (Some [JStr "Q1?"; JStr "Q2?"]) ∧
  ((extract_answer_details "An answer." (JStr "Q1?") "gpt-4"
      (Mock.start [Ok (Some (fenced details))] (Ok 200%Z))).1
     = Ok (Some (JObj [("answers", JStr "Yes."); ("facet", JArr [JStr "f"]);
                       ("pros", JArr [JStr "p1"; JStr "p2"; JStr "p3"]);
                       ("cons", JArr [JStr "c1"; JStr "c2"])])) ↔
   valid_extraction (PyStr.strip details)
     (JObj [("answers", JStr "Yes."); ("facet", JArr [JStr "f"]);
            ("pros", JArr [JStr "p1"; JStr "p2"; JStr "p3"]);
            ("cons", JArr [JStr "c1"; JStr "c2"])])).
Proof.
  intros questions details fenced. split.
  - destruct (@fenced_response_is_read_as_its_body _ Mock.collaborators
                (fenced questions) questions "ctx" "qp" 2 "An answer." (JStr "Q1?")
                "gpt-4"
                (Mock.start [Ok (Some (fenced questions))] (Ok 200%Z)))
      as [Hbulk _].
    + vm_compute. reflexivity.
    + rewrite Hbulk by reflexivity. vm_compute. reflexivity.
  - destruct (@fenced_response_is_read_as_its_body _ Mock.collaborators
                (fenced details) details "ctx" "qp" 2 "An answer." (JStr "Q1?")
                "gpt-4"
                (Mock.start [Ok (Some (fenced details))] (Ok 200%Z)))
      as [_ Hextract].
    + vm_compute. reflexivity.
    + apply Hextract. reflexivity.
Defined.

(** X13 on the script whose fifth extraction fails: the log names
    question 5. *)
Lemma dropped_question_is_logged_by_number_witness :
  let st := Mock.start (mjoin (replicate 4 Mock.good_round) ++
                        Mock.bad_extraction_round ++ Mock.good_round)
              (Ok 200%Z) in
  let questions := JStr <$> ((λ i, "Q" +:+ pretty i +:+ "?") <$> seq 1 6) in
  let c := mkRoundCalls (Some "An answer.") (Some None) in
  calls_of_loop "ctx" "ap" "gpt-4" 1 questions [] st !! 4 = Some c ∧
  Log ERROR "Skipping Q&A pair 5 due to extraction failure."
    ∈ trace (qa_loop "ctx" "ap" "gpt-4" 1 questions [] st).2.
Proof.
  intros st questions c.
  assert (Hcall : calls_of_loop "ctx" "ap" "gpt-4" 1 questions [] st !! 4 = Some c).
  { vm_compute. reflexivity. }
  assert (Hnot : ¬ round_assembled c).
  { intros [? Hsome]. discriminate Hsome. }
  split; [exact Hcall|].
  exact (@dropped_question_is_logged_by_number _ Mock.collaborators
           "ctx" "ap" "gpt-4" questions 1 [] st 4 c Hcall Hnot).
Defined.

End Examples.
